(** * Triage, retrieval and response composition of the customer-service bot

    A shallow embedding of
      - [customer-service-bot/src/triage.py]             (class [TriageEngine]),
      - [customer-service-bot/src/retrieval.py]          (class [RetrievalEngine]),
      - [customer-service-bot/src/response_generator.py] (class [ResponseGenerator]),
      - [customer-service-bot/src/interface.py]          ([ChatInterface.process_query]),
      - [customer-service-bot/src/vector_store.py]       ([VectorStore.add_tickets]),
      - [customer-service-bot/src/feedback.py]           (class [FeedbackManager]),
      - [customer-service-bot/src/agent_interface.py]    (the queue of conversations).

    Modelling conventions.
      - A Python [float] similarity or distance is an exact rational ([Q]);
        NaN and the infinities are not represented.
      - A Python [str] is a [string] of ASCII text; [str.lower] and
        [str.capitalize] are the ASCII case mappings.
      - A Python dict with fixed keys is a record; a decoded JSON object is the
        list of its fields, each key once.
      - The two OpenAI calls and the Chroma query are external: each is a
        function handed to the code, whose answer is either an exception or a
        value.  Every call is recorded in a trace, so that "the probe is not
        invoked" is a statement about the trace. *)

From Stdlib Require Import List String Ascii Bool Arith Lia QArith Lqa Sorted.
From Stdlib Require Import DecimalString Qround NArith ZArith.
Import ListNotations.

#[local] Set Warnings "-register-all".
Local Open Scope string_scope.

(** ** Python strings *)

Module PyStr.

(** [c.lower()] for one ASCII character. *)
Definition lower_ascii (c : ascii) : ascii :=
  let n := nat_of_ascii c in
  if andb (65 <=? n)%nat (n <=? 90)%nat then ascii_of_nat (n + 32) else c.

(** [c.upper()] for one ASCII character. *)
Definition upper_ascii (c : ascii) : ascii :=
  let n := nat_of_ascii c in
  if andb (97 <=? n)%nat (n <=? 122)%nat then ascii_of_nat (n - 32) else c.

(** [s.lower()] *)
Fixpoint lower (s : string) : string :=
  match s with
  | EmptyString => EmptyString
  | String c r => String (lower_ascii c) (lower r)
  end.

(** [s.capitalize()]: first character upper-cased, the rest lower-cased. *)
Definition capitalize (s : string) : string :=
  match s with
  | EmptyString => EmptyString
  | String c r => String (upper_ascii c) (lower r)
  end.

(** [p] is a prefix of [s]. *)
Fixpoint starts_with (p s : string) : bool :=
  match p, s with
  | EmptyString, _ => true
  | String _ _, EmptyString => false
  | String a p', String b s' => andb (Ascii.eqb a b) (starts_with p' s')
  end.

(** [k in s] for two strings: [k] occurs in [s] as a contiguous substring. *)
Fixpoint contains (k s : string) : bool :=
  orb (starts_with k s)
      match s with
      | EmptyString => false
      | String _ s' => contains k s'
      end.

(** [any(f(x) for x in l)] *)
Definition any {A} (f : A -> bool) (l : list A) : bool := existsb f l.

(** The double-quote character, as a one-character string. *)
Definition dquote : string := String (ascii_of_nat 34) EmptyString.

(** The newline character, as a one-character string. *)
Definition nl : string := String (ascii_of_nat 10) EmptyString.

End PyStr.

(** ** Exceptions, traces and the call monad *)

(** The exceptions the modelled code can meet. *)
Inductive exn : Type :=
| APIError        (* raised by an [openai] call: network, authentication, rate limit *)
| AttributeError  (* [.get] on a value that is not a dict *)
| IndexError      (* list index out of range *)
| StoreError.     (* raised by the Chroma query *)

(** One call to an external service, with its arguments. *)
Inductive event : Type :=
| SentimentCall (query : string)
| GenerateCall (system_prompt user : string)
| StoreQuery (query : string) (n_results : nat).

Inductive result (A : Type) : Type :=
| Ok (a : A)
| Raise (e : exn).
Arguments Ok {A} a.
Arguments Raise {A} e.

(** A computation: from the trace so far to an outcome and the trace after. *)
Definition M (A : Type) : Type := list event -> result A * list event.

Definition ret {A} (a : A) : M A := fun t => (Ok a, t).
Definition raise {A} (e : exn) : M A := fun t => (Raise e, t).
Definition bind {A B} (m : M A) (k : A -> M B) : M B :=
  fun t => match m t with
           | (Ok a, t') => k a t'
           | (Raise e, t') => (Raise e, t')
           end.
(** Calling an external service: the call is logged, then its answer is
    returned or its exception raised. *)
Definition call {A} (ev : event) (answer : result A) : M A :=
  fun t => (answer, (t ++ [ev])%list).
(** Running a computation from the empty trace. *)
Definition run {A} (m : M A) : result A * list event := m [].

Notation "x <- m ;; k" := (bind m (fun x => k))
  (at level 61, m at next level, right associativity).

(** ** JSON values, as [json.loads] builds them *)

Inductive json : Type :=
| JNull
| JBool (b : bool)
| JNum (n : Q)
| JStr (s : string)
| JArr (l : list json)
| JObj (fields : list (string * json)).

(** [d.get(key)] on the fields of a dict: [None] when the key is absent. *)
Fixpoint dict_get (key : string) (fields : list (string * json)) : option json :=
  match fields with
  | [] => None
  | (k, v) :: r => if String.eqb k key then Some v else dict_get key r
  end.

(** [v == s] for a looked-up value [v] and a string literal [s]. *)
Definition eq_str (v : option json) (s : string) : bool :=
  match v with
  | Some (JStr s') => String.eqb s' s
  | _ => false
  end.

(** ** The chat-completion reply *)

(** [response.choices[i].message.content]: [None], or a text.  A text is
    carried with what [json.loads] makes of it: the decoded value, or [None]
    when [json.loads] raises on it. *)
Inductive message_content : Type :=
| NoContent
| Text (s : string) (decoded : option json).

(** A reply of [openai.chat.completions.create]: the contents of its choices. *)
Definition completion : Type := list message_content.

(** ** triage.py *)

(** The dict returned by [should_escalate]. *)
Record decision : Type := mkDecision {
  escalate : bool;
  reason : string;
  confidence : string
}.

Record thresholds : Type := mkThresholds {
  th_high : Q;
  th_medium : Q;
  th_low : Q
}.

(** [self.confidence_thresholds], set in [__init__]. *)
Definition confidence_thresholds : thresholds :=
  {| th_high := 0.65; th_medium := 0.45; th_low := 0.0 |}.

(** [TriageEngine.determine_confidence] *)
Definition determine_confidence (top_similarity : Q) : string :=
  if Qle_bool (th_high confidence_thresholds) top_similarity then "high"
  else if Qle_bool (th_medium confidence_thresholds) top_similarity then "medium"
  else "low".

Definition human_keywords : list string :=
  ["speak to human"; "talk to agent"; "real person"; "human agent"].

(** [any(keyword in query.lower() for keyword in human_keywords)] *)
Definition explicit_request (query : string) : bool :=
  PyStr.any (fun keyword => PyStr.contains keyword (PyStr.lower query)) human_keywords.

(** The fallback of [check_sentiment]. *)
Definition default_sentiment : json :=
  JObj [("urgency", JStr "low"); ("sentiment", JStr "neutral")].

(** The [try: ... except: ...] block of [check_sentiment]:
    [json.loads(response.choices[0].message.content)], and the fallback when
    anything in it raises (no choice, no content, text that does not decode). *)
Definition parse_response (response : completion) : json :=
  match response with
  | Text _ (Some sentiment_data) :: _ => sentiment_data
  | _ => default_sentiment
  end.

Section Triage.

(** The sentiment request to the chat API, for a query: the reply, or the
    exception the call raises. *)
Variable sentiment_api : string -> result completion.

(** [str(v)] for a JSON number, list or dict [v], as an f-string prints it. *)
Variable py_repr : json -> string.

(** What an f-string prints for [d.get(key)]. *)
Definition format_value (v : option json) : string :=
  match v with
  | None => "None"
  | Some JNull => "None"
  | Some (JBool true) => "True"
  | Some (JBool false) => "False"
  | Some (JStr s) => s
  | Some v' => py_repr v'
  end.

(** [TriageEngine.check_sentiment]: the API call is outside the [try]; the
    indexing of the reply and [json.loads] are inside it. *)
Definition check_sentiment (query : string) : M json :=
  response <- call (SentimentCall query) (sentiment_api query) ;;
  ret (parse_response response).

(** [sentiment.get(key)]: an [AttributeError] unless [sentiment] is a dict. *)
Definition py_get (sentiment : json) (key : string) : M (option json) :=
  match sentiment with
  | JObj fields => ret (dict_get key fields)
  | _ => raise AttributeError
  end.

(** [a or b], where [b] is evaluated only when [a] is false. *)
Definition or_else (a : M bool) (b : M bool) : M bool :=
  x <- a ;; if x then ret true else b.

(** The [if confidence == "medium":] block: [Some d] when it returns [d],
    [None] when control falls through to the default case. *)
Definition medium_block (query confidence : string) : M (option decision) :=
  if String.eqb confidence "medium" then
    sentiment <- check_sentiment query ;;
    cond <- or_else (u <- py_get sentiment "urgency" ;; ret (eq_str u "high"))
                    (s <- py_get sentiment "sentiment" ;; ret (eq_str s "negative")) ;;
    if (cond : bool) then
      s <- py_get sentiment "sentiment" ;;
      u <- py_get sentiment "urgency" ;;
      ret (Some {| escalate := true;
                   reason := "Customer query shows " ++ format_value s
                             ++ " sentiment with " ++ format_value u ++ " urgency";
                   confidence := confidence |})
    else ret None
  else ret None.

(** [TriageEngine.should_escalate]; its third parameter,
    [previous_escalations], is never read and is left out. *)
Definition should_escalate (query : string) (top_similarity : Q) : M decision :=
  let confidence := determine_confidence top_similarity in
  let explicit_request := explicit_request query in
  if String.eqb confidence "low" then
    ret {| escalate := true;
           reason := "Low confidence in automated response";
           confidence := confidence |}
  else if explicit_request then
    ret {| escalate := true;
           reason := "Customer explicitly requested human assistance";
           confidence := confidence |}
  else
    early <- medium_block query confidence ;;
    match early with
    | Some d => ret d
    | None =>
        ret {| escalate := false;
               reason := PyStr.capitalize confidence ++ " confidence in automated response";
               confidence := confidence |}
    end.

End Triage.

(** ** retrieval.py *)

(** The dict returned by [VectorStore.query_tickets]: three parallel lists. *)
Record store_results : Type := mkStoreResults {
  documents : list string;
  ids : list string;
  distances : list Q
}.

(** One entry of [formatted_results]. *)
Record ticket : Type := mkTicket {
  content : string;
  similarity : Q;
  id : string
}.

(** The dict returned by [retrieve_relevant_tickets]. *)
Record retrieval : Type := mkRetrieval {
  results : list ticket;
  top_similarity : Q
}.

(** [l[i]]: an [IndexError] when [i] is out of range. *)
Definition index {A} (l : list A) (i : nat) : M A :=
  match nth_error l i with
  | Some a => ret a
  | None => raise IndexError
  end.

(** The [for i in range(len(results["documents"])):] loop, over the indices
    still to visit, with [formatted_results] as built so far. *)
Fixpoint format_loop (r : store_results) (indices : list nat)
    (formatted_results : list ticket) : M (list ticket) :=
  match indices with
  | [] => ret formatted_results
  | i :: rest =>
      c <- index (documents r) i ;;
      d <- index (distances r) i ;;
      x <- index (ids r) i ;;
      format_loop r rest
        (formatted_results ++ [{| content := c; similarity := 1.0 - d; id := x |}])%list
  end.

(** [1.0 - results["distances"][0] if results["distances"] else 0] *)
Definition top_of (dists : list Q) : Q :=
  match dists with
  | d :: _ => 1.0 - d
  | [] => 0
  end.

Section Retrieval.

(** [self.vector_store.query_tickets]: what the store answers, or the
    exception it raises. *)
Variable query_tickets : string -> nat -> result store_results.

(** [RetrievalEngine.retrieve_relevant_tickets] *)
Definition retrieve_relevant_tickets (query : string) (n_results : nat) : M retrieval :=
  r <- call (StoreQuery query n_results) (query_tickets query n_results) ;;
  formatted_results <- format_loop r (seq 0 (List.length (documents r))) [] ;;
  ret {| results := formatted_results; top_similarity := top_of (distances r) |}.

End Retrieval.

(** ** response_generator.py *)

Module Response.
(** The dict returned by [generate_response]; [response_text] is [None]
    when the reply's content is. *)
Record t : Type := mk {
  response_text : option string;
  confidence : string;
  should_escalate : bool;
  reason : string
}.
End Response.

Section ResponseGenerator.

(** The generation request to the chat API, for a system prompt and a user
    message: the reply, or the exception the call raises. *)
Variable generate_api : string -> string -> result completion.

(** [system_prompt]: the prompt of the [if escalate:] branch. *)
Definition escalate_prompt (query context reason : string) : string :=
     "You are a helpful customer service assistant for Capital Area Food bank organization. " ++ PyStr.nl
  ++ "            The customer has asked: " ++ PyStr.dquote ++ query ++ PyStr.dquote ++ PyStr.nl
  ++ "            " ++ PyStr.nl
  ++ "            Based on our analysis, this query should be handled by a human agent because: " ++ reason ++ PyStr.nl
  ++ "            " ++ PyStr.nl
  ++ "            However, you can still provide a helpful initial response. Use the following similar past tickets as reference:" ++ PyStr.nl
  ++ "            " ++ PyStr.nl
  ++ "            " ++ context ++ PyStr.nl
  ++ "            " ++ PyStr.nl
  ++ "            Respond in a helpful manner, but clearly indicate that you'll connect them with a human agent for further assistance." ++ PyStr.nl
  ++ "            ".

(** [system_prompt]: the prompt of the [elif confidence == 'high':] branch. *)
Definition high_prompt (query context : string) : string :=
     "You are a helpful customer service assistant for a food bank organization." ++ PyStr.nl
  ++ "            The customer has asked: " ++ PyStr.dquote ++ query ++ PyStr.dquote ++ PyStr.nl
  ++ "            " ++ PyStr.nl
  ++ "            Based on our records, we have high confidence in addressing this query. Use the following similar past tickets as reference:" ++ PyStr.nl
  ++ "            " ++ PyStr.nl
  ++ "            " ++ context ++ PyStr.nl
  ++ "            " ++ PyStr.nl
  ++ "            Provide a clear, direct answer based on these similar cases. Be concise but thorough." ++ PyStr.nl
  ++ "            ".

(** [system_prompt]: the prompt of the [else:] branch. *)
Definition medium_prompt (query context : string) : string :=
     "You are a helpful customer service assistant for a food bank organization." ++ PyStr.nl
  ++ "            The customer has asked: " ++ PyStr.dquote ++ query ++ PyStr.dquote ++ PyStr.nl
  ++ "            " ++ PyStr.nl
  ++ "            We have found some potentially relevant past tickets, but they may not fully address the question. Use them as guidance:" ++ PyStr.nl
  ++ "            " ++ PyStr.nl
  ++ "            " ++ context ++ PyStr.nl
  ++ "            " ++ PyStr.nl
  ++ "            Provide a helpful response based on the information available, but indicate any areas where you're uncertain or where the customer might need additional assistance." ++ PyStr.nl
  ++ "            ".

(** The [if escalate: ... elif confidence == "high": ... else: ...] choice. *)
Definition system_prompt (query context : string) (triage_result : decision) : string :=
  if escalate triage_result then
    escalate_prompt query context (reason triage_result)
  else if String.eqb (confidence triage_result) "high" then
    high_prompt query context
  else
    medium_prompt query context.

(** [response.choices[0].message.content] *)
Definition first_content (response : completion) : M (option string) :=
  match response with
  | [] => raise IndexError
  | NoContent :: _ => ret None
  | Text s _ :: _ => ret (Some s)
  end.

(** [ResponseGenerator.generate_response] *)
Definition generate_response (query context : string) (triage_result : decision)
    : M Response.t :=
  let confidence := confidence triage_result in
  let escalate := escalate triage_result in
  let system_prompt := system_prompt query context triage_result in
  response <- call (GenerateCall system_prompt query)
                   (generate_api system_prompt query) ;;
  text <- first_content response ;;
  ret {| Response.response_text := text;
         Response.confidence := confidence;
         Response.should_escalate := escalate;
         Response.reason := reason triage_result |}.

End ResponseGenerator.

(** ** Vocabulary of the statements *)

(** [q] contains, up to ASCII case, the phrase [k]: some contiguous part of
    [q] lower-cases to [k]. *)
Definition mentions (q k : string) : Prop :=
  exists pre u post, q = pre ++ u ++ post /\ PyStr.lower u = k.

(** [q] contains, up to case, one of the human-request phrases. *)
Definition requests_human (q : string) : Prop :=
  exists k, In k human_keywords /\ mentions q k.

(** The reply's first content does not decode: there is no choice, no
    content, or a text [json.loads] rejects. *)
Definition undecodable (response : completion) : Prop :=
  match response with
  | Text _ (Some _) :: _ => False
  | _ => True
  end.

(** Whether the decoded sentiment triggers an escalation:
    [urgency == "high" or sentiment == "negative"]. *)
Definition alarming (fields : list (string * json)) : bool :=
  eq_str (dict_get "urgency" fields) "high"
  || eq_str (dict_get "sentiment" fields) "negative".

(** The decision of the sentiment branch, for the decoded [fields]. *)
Definition sentiment_decision (repr : json -> string)
    (fields : list (string * json)) : decision :=
  {| escalate := true;
     reason := "Customer query shows " ++ format_value repr (dict_get "sentiment" fields)
               ++ " sentiment with " ++ format_value repr (dict_get "urgency" fields)
               ++ " urgency";
     confidence := "medium" |}.

(** The records built from three parallel lists, position by position:
    what the loop of [retrieve_relevant_tickets] is meant to produce. *)
Fixpoint zip_tickets (docs : list string) (dists : list Q) (idents : list string)
    : list ticket :=
  match docs, dists, idents with
  | c :: docs', d :: dists', x :: idents' =>
      {| content := c; similarity := 1.0 - d; id := x |}
      :: zip_tickets docs' dists' idents'
  | _, _, _ => []
  end.

(** A similarity in the normalised range. *)
Definition normalised (s : Q) : Prop := 0 <= s /\ s <= 1.

(** ** Sample environments, for the concrete runs *)

Module Samples.

(** The chat API is unreachable: every call raises. *)
Definition api_down : string -> result completion :=
  fun _ => Raise APIError.

(** The chat API answers every request with the reply [c]. *)
Definition api_says (c : completion) : string -> result completion :=
  fun _ => Ok c.

(** A printer for JSON values that are not strings.  The sample replies
    hold strings only, so the runs below never consult it. *)
Definition repr : json -> string :=
  fun _ => "<json>".

(** The text [{k1: v1, k2: v2}] with double-quoted keys and values. *)
Definition object_text (k1 v1 k2 v2 : string) : string :=
  let quoted x := PyStr.dquote ++ x ++ PyStr.dquote in
  "{" ++ quoted k1 ++ ": " ++ quoted v1 ++ ", " ++ quoted k2 ++ ": " ++ quoted v2 ++ "}".

(** A reply whose one choice is a JSON object with string-valued
    [urgency] and [sentiment]. *)
Definition sentiment_reply (urgency sentiment : string) : completion :=
  [Text (object_text "urgency" urgency "sentiment" sentiment)
        (Some (JObj [("urgency", JStr urgency); ("sentiment", JStr sentiment)]))].

(** A reply whose one choice is a JSON list: valid JSON, but not a dict. *)
Definition list_reply : completion :=
  [Text "[]" (Some (JArr []))].

(** A reply whose one choice is text that is not JSON. *)
Definition garbled_reply : completion :=
  [Text "urgency: low" None].

(** The store answers every query with [r]. *)
Definition store_says (r : store_results) : string -> nat -> result store_results :=
  fun _ _ => Ok r.

(** Two tickets at distances 0.2 and 0.4. *)
Definition two_near : store_results :=
  {| documents := ["Summary: late parcel"; "Summary: lost parcel"];
     ids := ["CS-1"; "CS-2"];
     distances := [0.2; 0.4] |}.

(** One ticket at distance 1.5. *)
Definition one_far : store_results :=
  {| documents := ["Summary: office hours"];
     ids := ["CS-7"];
     distances := [1.5] |}.

(** The generation request is answered with the one-choice reply [text]. *)
Definition generate_says (text : string) : string -> string -> result completion :=
  fun _ _ => Ok [Text text None].

End Samples.

(** ** Vocabulary of the further statements *)

(** The order of the tiers: "low" below "medium" below "high". *)
Definition tier_rank (tier : string) : nat :=
  if String.eqb tier "high" then 2
  else if String.eqb tier "medium" then 1
  else 0.

(** The external calls [should_escalate] makes for a query at a tier: the
    sentiment request at the medium tier without an explicit request, and
    nothing otherwise. *)
Definition expected_calls (query : string) (top_similarity : Q) : list event :=
  if String.eqb (determine_confidence top_similarity) "medium"
     && negb (explicit_request query)
  then [SentimentCall query] else [].

(** ** retrieval.py, continued: the context for the prompt *)

(** [str(n)] for a natural number. *)
Definition str_of_nat (n : nat) : string :=
  NilZero.string_of_uint (Nat.to_uint n).

(** [sep.join(parts)] *)
Fixpoint join (sep : string) (parts : list string) : string :=
  match parts with
  | [] => EmptyString
  | [p] => p
  | p :: rest => p ++ sep ++ join sep rest
  end.

Module Context.
(** The dict returned by [format_context_for_prompt]. *)
Record t : Type := mk {
  formatted_context : string;
  top_similarity : Q;
  ticket_ids : list string
}.
End Context.

Section Context.

Variable query_tickets : string -> nat -> result store_results.

(** The format [{x:.2f}] of a similarity. *)
Variable format_2f : Q -> string.

(** One entry of [context_parts], for the position [i] of [enumerate]. *)
Definition context_part (i : nat) (result : ticket) : string :=
  "RELEVANT TICKET #" ++ str_of_nat (i + 1)
  ++ " (Similarity: " ++ format_2f (similarity result) ++ "):" ++ PyStr.nl
  ++ content result ++ PyStr.nl.

(** The [for i, result in enumerate(...)] loop, from position [i] on. *)
Fixpoint context_parts (i : nat) (results : list ticket) : list string :=
  match results with
  | [] => []
  | result :: rest => context_part i result :: context_parts (S i) rest
  end.

(** [RetrievalEngine.format_context_for_prompt] *)
Definition format_context_for_prompt (query : string) (n_results : nat) : M Context.t :=
  retrieval_results <- retrieve_relevant_tickets query_tickets query n_results ;;
  let context := join PyStr.nl (context_parts 0 (results retrieval_results)) in
  ret {| Context.formatted_context := context;
         Context.top_similarity := top_similarity retrieval_results;
         Context.ticket_ids := map id (results retrieval_results) |}.

End Context.

(** ** interface.py: [ChatInterface.process_query] *)

(** What can end [process_query] early: an exception of the core, or the
    [TypeError] of [len(None)]. *)
Inductive failure : Type :=
| CoreFailure (e : exn)
| TypeError.

Inductive outcome (A : Type) : Type :=
| Returned (a : A)
| Failed (f : failure).
Arguments Returned {A} a.
Arguments Failed {A} f.

Module Reply.
(** The dict returned by [process_query]: the response of the generator with
    the two keys added to it. *)
Record t : Type := mk {
  response : Response.t;
  relevant_ticket_ids : list string;
  similarity_score : Q
}.
End Reply.

Section Interface.

Variable query_tickets : string -> nat -> result store_results.
Variable format_2f : Q -> string.
Variable sentiment_api : string -> result completion.
Variable py_repr : json -> string.
Variable generate_api : string -> string -> result completion.

(** The three phases of [process_query], up to the response of the
    generator.  [format_context_for_prompt] is called with its default
    [n_results=3].  The progress lines printed in between are not modelled,
    except for the one that can raise (see [process_query]). *)
Definition process_phases (query : string) : M (Context.t * Response.t) :=
  retrieval_result <- format_context_for_prompt query_tickets format_2f query 3 ;;
  let top_similarity := Context.top_similarity retrieval_result in
  triage_result <- should_escalate sentiment_api py_repr query top_similarity ;;
  response <- generate_response generate_api query
                (Context.formatted_context retrieval_result) triage_result ;;
  ret (retrieval_result, response).

(** [ChatInterface.process_query].  After the two keys are added, the line
    [print(f"... ({len(response['response_text'])} chars)")] raises
    [TypeError] when the generated text is [None]. *)
Definition process_query (query : string)
    : list event -> outcome Reply.t * list event :=
  fun t =>
    match process_phases query t with
    | (Raise e, t') => (Failed (CoreFailure e), t')
    | (Ok (retrieval_result, response), t') =>
        match Response.response_text response with
        | None => (Failed TypeError, t')
        | Some _ =>
            (Returned {| Reply.response := response;
                         Reply.relevant_ticket_ids := Context.ticket_ids retrieval_result;
                         Reply.similarity_score := Context.top_similarity retrieval_result |},
             t')
        end
    end.

End Interface.

(** ** More sample environments *)

Module MoreSamples.

(** No ticket at all: the answer of an empty collection. *)
Definition nothing : store_results :=
  {| documents := []; ids := []; distances := [] |}.

(** The store is unreachable: every query raises. *)
Definition store_down : string -> nat -> result store_results :=
  fun _ _ => Raise StoreError.

(** Two decimals of a non-negative rational, rounded to the nearest
    hundredth; it stands for [{x:.2f}] in the sample runs. *)
Definition two_decimals (x : Q) : string :=
  let h := Z.to_nat (Qfloor (x * 100 + 0.5)) in
  let cents := (h mod 100)%nat in
  str_of_nat (h / 100) ++ "."
  ++ (if (cents <? 10)%nat then "0" else EmptyString) ++ str_of_nat cents.

(** The generator answers with a choice that has no content. *)
Definition generate_nothing : string -> string -> result completion :=
  fun _ _ => Ok [NoContent].

End MoreSamples.

(** ** Vocabulary for the composition of the phases *)

(** A computation only appends to the trace, and its outcome does not depend
    on the trace it starts from. *)
Definition framed {A} (m : M A) : Prop :=
  forall t, m t = (fst (m []), (t ++ snd (m []))%list).

(** The context built from a store answer. *)
Definition context_of (format_2f : Q -> string) (r : store_results) : string :=
  join PyStr.nl
       (context_parts format_2f 0
          (zip_tickets (documents r) (distances r) (ids r))).

(** The text of a choice, as [generate_response] reads it. *)
Definition text_of (m : message_content) : option string :=
  match m with
  | NoContent => None
  | Text s _ => Some s
  end.

(** ** vector_store.py: [VectorStore.add_tickets] *)

(** [len(s)], as a binary natural number. *)
Definition py_len (s : string) : N := N.of_nat (String.length s).

(** [s[:n]] *)
Fixpoint take (n : N) (s : string) : string :=
  match s with
  | EmptyString => EmptyString
  | String c r => if (n =? 0)%N then EmptyString else String c (take (N.pred n) r)
  end.

(** [l[i:j]] for a list. *)
Definition slice {A} (l : list A) (i j : nat) : list A :=
  firstn (j - i) (skipn i l).

(** [range(0, stop, step)] *)
Definition range_step (stop step : nat) : list nat :=
  map (fun k => k * step)%nat (seq 0 ((stop + (step - 1)) / step)).

(** A row of the DataFrame: its columns, each with the [str()] of its value. *)
Definition row : Type := list (string * string).

(** [ticket.get(key, default)] *)
Fixpoint series_get (ticket : row) (key default : string) : string :=
  match ticket with
  | [] => default
  | (k, v) :: rest => if String.eqb k key then v else series_get rest key default
  end.

Record metadata : Type := mkMetadata {
  issue_key : string;
  status : string;
  priority : string
}.

Definition truncation_mark : string := "... [truncated due to length]".

(** [MAX_TOKENS] *)
Definition MAX_TOKENS : Q := 7000.

(** The document of one row: the template, the resolution cut at 5000
    characters, and the whole cut at [int(MAX_TOKENS * 4)] characters when
    [len(document) / 4 > MAX_TOKENS]. *)
Definition make_document (ticket : row) : string :=
  let document :=
    PyStr.nl
    ++ "                Issue Key: " ++ series_get ticket "Issue key" "N/A" ++ PyStr.nl
    ++ "                Summary: " ++ series_get ticket "Summary" "N/A" ++ PyStr.nl
    ++ "                Description: " ++ series_get ticket "Description" "N/A" ++ PyStr.nl
    ++ "                Status: " ++ series_get ticket "Status" "N/A" ++ PyStr.nl
    ++ "                " in
  let resolution := series_get ticket "Merged Comments" EmptyString in
  let resolution :=
    if (5000 <? py_len resolution)%N
    then take 5000 resolution ++ truncation_mark
    else resolution in
  let document := document ++ "Resolution: " ++ resolution in
  let estimated_tokens := inject_Z (Z.of_N (py_len document)) / 4 in
  if negb (Qle_bool estimated_tokens MAX_TOKENS)
  then take 28000 document ++ truncation_mark
  else document.

(** The metadata of one row. *)
Definition make_metadata (ticket : row) : metadata :=
  {| issue_key := series_get ticket "Issue key" EmptyString;
     status := series_get ticket "Status" EmptyString;
     priority := series_get ticket "Priority" EmptyString |}.

(** The id of the row at index [idx]. *)
Definition make_id (idx : nat) (ticket : row) : string :=
  series_get ticket "Issue key" ("ticket_" ++ str_of_nat idx).

(** The arguments of one [collection.add]. *)
Record add_call : Type := mkAddCall {
  add_documents : list string;
  add_metadatas : list metadata;
  add_ids : list string
}.

(** One attempted [collection.add], with whether it went through. *)
Record attempt : Type := mkAttempt {
  sent : add_call;
  accepted : bool
}.

(** The three lists built by the first loop, for the rows from index [idx]
    on.  The body of the loop cannot raise on a row of strings, so its
    [except] branch is never taken. *)
Fixpoint prepare (idx : nat) (tickets : list row)
    (documents : list string) (metadatas : list metadata) (ids : list string)
    : list string * list metadata * list string :=
  match tickets with
  | [] => (documents, metadatas, ids)
  | ticket :: rest =>
      prepare (S idx) rest
        (documents ++ [make_document ticket])%list
        (metadatas ++ [make_metadata ticket])%list
        (ids ++ [make_id idx ticket])%list
  end.

Section VectorStore.

(** [self.collection.add]: whether the call goes through ([true]) or raises
    ([false]), given the attempts made before it. *)
Variable collection_add : list attempt -> add_call -> bool.

(** One [collection.add] inside a [try]: the attempt is logged. *)
Definition try_add (history : list attempt) (c : add_call) : list attempt * bool :=
  let ok := collection_add history c in
  ((history ++ [{| sent := c; accepted := ok |}])%list, ok).

(** The inner loop [for j in range(i, end_idx)]: each ticket on its own. *)
Fixpoint add_one_by_one (documents : list string) (metadatas : list metadata)
    (ids : list string) (indices : list nat) (history : list attempt) : list attempt :=
  match indices with
  | [] => history
  | j :: rest =>
      match nth_error documents j, nth_error metadatas j, nth_error ids j with
      | Some d, Some m, Some x =>
          add_one_by_one documents metadatas ids rest
            (fst (try_add history
                    {| add_documents := [d]; add_metadatas := [m]; add_ids := [x] |}))
      | _, _, _ => add_one_by_one documents metadatas ids rest history
      end
  end.

(** The body of the outer loop, for the batch starting at [i]. *)
Definition add_batch (documents : list string) (metadatas : list metadata)
    (ids : list string) (history : list attempt) (i : nat) : list attempt :=
  let batch_size := 50%nat in
  let end_idx := Nat.min (i + batch_size) (List.length documents) in
  let (history', ok) :=
    try_add history {| add_documents := slice documents i end_idx;
                       add_metadatas := slice metadatas i end_idx;
                       add_ids := slice ids i end_idx |} in
  if ok then history'
  else add_one_by_one documents metadatas ids (seq i (end_idx - i)) history'.

(** [VectorStore.add_tickets]: the number it returns, and the attempts it
    made on the collection. *)
Definition add_tickets (tickets_df : list row) : nat * list attempt :=
  let '(documents, metadatas, ids) := prepare 0 tickets_df [] [] [] in
  let batch_size := 50%nat in
  let history :=
    fold_left (add_batch documents metadatas ids)
              (range_step (List.length documents) batch_size) [] in
  (List.length documents, history).

End VectorStore.

(** The ids of the rows from index [idx] on. *)
Fixpoint make_ids (idx : nat) (tickets : list row) : list string :=
  match tickets with
  | [] => []
  | ticket :: rest => make_id idx ticket :: make_ids (S idx) rest
  end.

(** A collection that accepts every call. *)
Definition accepts_all (collection_add : list attempt -> add_call -> bool) : Prop :=
  forall history c, collection_add history c = true.

(** ** feedback.py: [FeedbackManager] *)

Module Feedback.

(** One entry of [feedback_data["feedback"]]. *)
Record entry : Type := mkEntry {
  timestamp : string;
  query : string;
  response_summary : string;
  feedback_type : string;
  confidence_level : string;
  ticket_ids : list string;
  similarity_score : option Q;
  comments : option string
}.

(** The dict returned by [get_feedback_summary]; its last two keys are
    absent when there is no feedback. *)
Record summary : Type := mkSummary {
  total : nat;
  positive : nat;
  negative : nat;
  neutral : nat;
  positive_percent : option Q;
  recent_feedback : option (list entry)
}.

(** [response[:100] + "..." if len(response) > 100 else response] *)
Definition summarise (response : string) : string :=
  if (100 <? py_len response)%N then take 100 response ++ "..." else response.

(** The entry [save_feedback] builds; [now] is
    [datetime.now().isoformat()]. *)
Definition make_entry (now query response feedback_type confidence : string)
    (ticket_ids : option (list string)) (similarity : option Q)
    (comments : option string) : entry :=
  {| timestamp := now;
     query := query;
     response_summary := summarise response;
     feedback_type := feedback_type;
     confidence_level := confidence;
     ticket_ids := match ticket_ids with
                   | Some (x :: l) => x :: l
                   | _ => []
                   end;
     similarity_score := similarity;
     comments := comments |}.

(** [FeedbackManager.save_feedback] on the entries held in memory:
    [written] tells whether writing the file went through.  The result is
    the returned flag and the entries afterwards. *)
Definition save_feedback (now : string) (written : bool) (feedback : list entry)
    (query response feedback_type confidence : string)
    (ticket_ids : option (list string)) (similarity : option Q)
    (comments : option string) : bool * list entry :=
  let feedback_entry :=
    make_entry now query response feedback_type confidence
               ticket_ids similarity comments in
  let feedback := (feedback ++ [feedback_entry])%list in
  if written then (true, feedback) else (false, feedback).

(** [sum(1 for item in feedback if item["feedback_type"] == kind)] *)
Definition count_type (kind : string) (feedback : list entry) : nat :=
  List.length (filter (fun item => String.eqb (feedback_type item) kind) feedback).

Section Summary.

(** [round(x, 1)] *)
Variable round1 : Q -> Q.

(** [FeedbackManager.get_feedback_summary] *)
Definition get_feedback_summary (feedback : list entry) : summary :=
  match feedback with
  | [] => {| total := 0; positive := 0; negative := 0; neutral := 0;
             positive_percent := None; recent_feedback := None |}
  | _ :: _ =>
      let positive := count_type "positive" feedback in
      let negative := count_type "negative" feedback in
      let neutral := count_type "neutral" feedback in
      {| total := List.length feedback;
         positive := positive;
         negative := negative;
         neutral := neutral;
         positive_percent :=
           Some (round1 (inject_Z (Z.of_nat positive)
                         / inject_Z (Z.of_nat (List.length feedback)) * 100));
         recent_feedback :=
           Some (if (5 <=? List.length feedback)%nat
                 then skipn (List.length feedback - 5) feedback
                 else feedback) |}
  end.

End Summary.

(** An entry's type is one of the three the summary counts. *)
Definition counted (item : entry) : Prop :=
  feedback_type item = "positive" \/ feedback_type item = "negative"
  \/ feedback_type item = "neutral".

End Feedback.

(** ** Sample tickets and feedback *)

Module TicketSamples.

Definition late_parcel : row :=
  [("Issue key", "CS-1"); ("Summary", "Late parcel"); ("Status", "Done");
   ("Merged Comments", "[07/10/2023 01:07] Hi, we have resent it.")].

Definition no_key : row :=
  [("Summary", "Opening hours"); ("Status", "Open")].

(** A collection that accepts every call. *)
Definition accepting : list attempt -> add_call -> bool := fun _ _ => true.

(** Rounding of an exact rational to one decimal, ties to the even digit;
    it stands for [round(x, 1)] in the sample runs. *)
Definition round_tenths (x : Q) : Q :=
  let t := x * 10 in
  let f := Qfloor t in
  let up :=
    match Qcompare (t - inject_Z f) 0.5 with
    | Lt => false
    | Gt => true
    | Eq => Z.odd f
    end in
  inject_Z (if up then f + 1 else f) / 10.

(** Two entries: one thumbs-up, one answer of a human agent. *)
Definition two_entries : list Feedback.entry :=
  [ Feedback.make_entry "2025-01-01T10:00:00" "where is my parcel"
      "It is on its way." "positive" "high" (Some ["CS-1"]) (Some 0.8) None;
    Feedback.make_entry "2025-01-01T10:05:00" "I want a refund"
      "Please send us your order number." "agent_response" "human"
      None None (Some "Agent: Kim") ].

End TicketSamples.

(** ** agent_interface.py: the queue of escalated conversations *)

Module Agent.

(** One entry of [st.session_state.pending_conversations]. *)
Record conversation : Type := mkConversation {
  id : string;
  query : string;
  bot_response : string;
  reason : string;
  timestamp : string
}.

(** One value of [st.session_state.agent_responses]. *)
Record agent_reply : Type := mkAgentReply {
  response : string;
  agent : string;
  replied_at : string
}.

(** The keys of [st.session_state] the queue uses; a key that is not set is
    [None]. *)
Record session : Type := mkSession {
  pending_conversations : option (list conversation);
  agent_responses : option (list (string * agent_reply));
  agent_name : string
}.

(** [str(n)] for a large natural number, such as a time in seconds. *)
Definition str_of_N (n : N) : string :=
  NilZero.string_of_uint (N.to_uint n).

(** [d[key]] for the dict [agent_responses], kept as the list of its items. *)
Fixpoint dict_lookup (key : string) (d : list (string * agent_reply)) : option agent_reply :=
  match d with
  | [] => None
  | (k, v) :: rest => if String.eqb k key then Some v else dict_lookup key rest
  end.

(** [d[key] = value]: the value of an existing key is replaced in place, a
    new key is added at the end. *)
Fixpoint dict_set (key : string) (value : agent_reply) (d : list (string * agent_reply))
    : list (string * agent_reply) :=
  match d with
  | [] => [(key, value)]
  | (k, v) :: rest =>
      if String.eqb k key then (k, value) :: rest
      else (k, v) :: dict_set key value rest
  end.

(** [add_to_agent_queue]; [seconds] is [int(time.time())] and [now] is
    [datetime.now().isoformat()].  The result is the id and the session
    afterwards. *)
Definition add_to_agent_queue (seconds : N) (now : string) (st : session)
    (query bot_response reason : string) : string * session :=
  let pending := match pending_conversations st with
                 | Some l => l
                 | None => []
                 end in
  let conv_id := "conv_" ++ str_of_N seconds ++ "_" ++ str_of_nat (List.length pending) in
  (conv_id,
   {| pending_conversations :=
        Some (pending ++ [{| id := conv_id;
                             query := query;
                             bot_response := bot_response;
                             reason := reason;
                             timestamp := now |}])%list;
      agent_responses := agent_responses st;
      agent_name := agent_name st |}).

(** [AgentInterface._handle_agent_response]; [manager] is the log of
    [self.feedback_manager], when there is one; [now] and [now'] are the two
    readings of the clock, [written] whether the feedback file was written.
    The result is the session and the log afterwards. *)
Definition handle_agent_response (now now' : string) (written : bool)
    (manager : option (list Feedback.entry)) (st : session)
    (conv : conversation) (response : string)
    : session * option (list Feedback.entry) :=
  match pending_conversations st with
  | None => (st, manager)
  | Some pending =>
      let pending := filter (fun c => negb (String.eqb (id c) (id conv))) pending in
      let responses := match agent_responses st with
                       | Some d => d
                       | None => []
                       end in
      let responses :=
        dict_set (id conv)
                 {| response := response; agent := agent_name st; replied_at := now |}
                 responses in
      let st' := {| pending_conversations := Some pending;
                    agent_responses := Some responses;
                    agent_name := agent_name st |} in
      match manager with
      | Some feedback =>
          (st', Some (snd (Feedback.save_feedback now' written feedback
                             (query conv) response "agent_response" "human"
                             None None (Some ("Agent: " ++ agent_name st)))))
      | None => (st', None)
      end
  end.

(** [get_agent_response] *)
Definition get_agent_response (st : session) (conv_id : string) : option agent_reply :=
  match agent_responses st with
  | Some d => dict_lookup conv_id d
  | None => None
  end.

End Agent.

Module AgentSamples.

(** A session with an empty queue, after the agent Kim logged in. *)
Definition fresh : Agent.session :=
  {| Agent.pending_conversations := Some [];
     Agent.agent_responses := None;
     Agent.agent_name := "Kim" |}.

(** The session after one conversation was queued at second 1700000000. *)
Definition queued : string * Agent.session :=
  Agent.add_to_agent_queue 1700000000%N "2023-11-14T22:13:20" fresh
    "I want a refund" "Let me connect you with an agent."
    "Customer explicitly requested human assistance".

End AgentSamples.

(** * Properties *)

(** ** Substrings and case *)

Lemma starts_with_spec (p s : string) :
  PyStr.starts_with p s = true <-> exists r, s = p ++ r.
Proof.
  revert s; induction p as [|a p IH]; intros s; simpl.
  - split; [intros _; now exists s | reflexivity].
  - destruct s as [|b s].
    + split; [discriminate | intros [r H]; discriminate].
    + rewrite andb_true_iff, Ascii.eqb_eq, IH. split.
      * intros [-> [r ->]]. now exists r.
      * intros [r H]. injection H as -> ->. split; [reflexivity | now exists r].
Qed.

Lemma contains_spec (k s : string) :
  PyStr.contains k s = true <-> exists pre post, s = pre ++ k ++ post.
Proof.
  induction s as [|c s IH].
  - simpl. rewrite orb_false_r, starts_with_spec. split.
    + intros [r H]. now exists EmptyString, r.
    + intros [pre [post H]]. destruct pre; [now exists post | discriminate].
  - cbn [PyStr.contains]. rewrite orb_true_iff, starts_with_spec, IH. split.
    + intros [[r H] | [pre [post H]]].
      * now exists EmptyString, r.
      * exists (String c pre), post. simpl. now rewrite H.
    + intros [pre [post H]]. destruct pre as [|c' pre].
      * left. now exists post.
      * right. simpl in H. injection H as _ H. now exists pre, post.
Qed.

Lemma lower_app (a b : string) :
  PyStr.lower (a ++ b) = PyStr.lower a ++ PyStr.lower b.
Proof. induction a as [|c a IH]; simpl; [reflexivity | now rewrite IH]. Qed.

Lemma lower_app_inv (q a b : string) :
  PyStr.lower q = a ++ b ->
  exists a' b', q = a' ++ b' /\ PyStr.lower a' = a /\ PyStr.lower b' = b.
Proof.
  revert q; induction a as [|c a IH]; intros q H.
  - exists EmptyString, q. now simpl in *.
  - destruct q as [|d q]; [discriminate|].
    simpl in H. injection H as Hc H.
    destruct (IH _ H) as [a' [b' [-> [Ha Hb]]]].
    exists (String d a'), b'. simpl. now rewrite Hc, Ha, Hb.
Qed.

Lemma contains_lower_mentions (q k : string) :
  PyStr.contains k (PyStr.lower q) = true <-> mentions q k.
Proof.
  rewrite contains_spec. split.
  - intros [pre [post H]].
    destruct (lower_app_inv _ _ _ H) as [pre' [r [-> [_ Hr]]]].
    destruct (lower_app_inv _ _ _ Hr) as [u [post' [-> [Hu _]]]].
    now exists pre', u, post'.
  - intros [pre [u [post [-> <-]]]].
    exists (PyStr.lower pre), (PyStr.lower post). now rewrite !lower_app.
Qed.

(** The keyword scan of [should_escalate] decides [requests_human]. *)
Lemma explicit_request_spec (q : string) :
  explicit_request q = true <-> requests_human q.
Proof.
  unfold explicit_request, PyStr.any, requests_human.
  rewrite existsb_exists. split.
  - intros [k [Hin Hc]]. exists k. now rewrite <- contains_lower_mentions.
  - intros [k [Hin Hm]]. exists k. now rewrite contains_lower_mentions.
Qed.

Lemma explicit_request_false (q : string) :
  explicit_request q = false <-> ~ requests_human q.
Proof.
  rewrite <- explicit_request_spec. destruct (explicit_request q); split; congruence.
Qed.

(** ** The tiers of [determine_confidence] *)

Lemma determine_confidence_high (s : Q) :
  determine_confidence s = "high" <-> 0.65 <= s.
Proof.
  unfold determine_confidence; simpl th_high; simpl th_medium.
  destruct (Qle_bool 0.65 s) eqn:H.
  - apply Qle_bool_iff in H. tauto.
  - split; [destruct (Qle_bool 0.45 s); discriminate|].
    intros H'. apply Qle_bool_iff in H'. congruence.
Qed.

Lemma determine_confidence_medium (s : Q) :
  determine_confidence s = "medium" <-> 0.45 <= s /\ s < 0.65.
Proof.
  unfold determine_confidence; simpl th_high; simpl th_medium.
  destruct (Qle_bool 0.65 s) eqn:H; [|destruct (Qle_bool 0.45 s) eqn:H'].
  - apply Qle_bool_iff in H. split; [discriminate | lra].
  - apply Qle_bool_iff in H'. split; [intros _|reflexivity].
    split; [assumption|]. apply Qnot_le_lt. rewrite <- Qle_bool_iff. congruence.
  - split; [discriminate|]. intros [H'' _]. apply Qle_bool_iff in H''. congruence.
Qed.

Lemma determine_confidence_low (s : Q) :
  determine_confidence s = "low" <-> s < 0.45.
Proof.
  unfold determine_confidence; simpl th_high; simpl th_medium.
  destruct (Qle_bool 0.65 s) eqn:H; [|destruct (Qle_bool 0.45 s) eqn:H'].
  - apply Qle_bool_iff in H. split; [discriminate | lra].
  - apply Qle_bool_iff in H'. split; [discriminate | lra].
  - split; [intros _|reflexivity].
    apply Qnot_le_lt. rewrite <- Qle_bool_iff. congruence.
Qed.

(** [determine_confidence] only ever answers one of the three tier names. *)
Lemma determine_confidence_range (s : Q) :
  determine_confidence s = "high" \/ determine_confidence s = "medium"
  \/ determine_confidence s = "low".
Proof.
  unfold determine_confidence.
  destruct (Qle_bool _ s); [|destruct (Qle_bool _ s)]; auto.
Qed.

(** C4. [determine_confidence] is a total function of the similarity; it
    answers "high" exactly when [s >= 0.65], "medium" exactly when
    [0.45 <= s < 0.65] and "low" exactly when [s < 0.45]; the lower bounds are
    inclusive, and a similarity below 0 or above 1 is classified ("low",
    "high") like any other. *)
Theorem determine_confidence_tiers :
  forall s : Q,
    (determine_confidence s = "high" <-> 0.65 <= s) /\
    (determine_confidence s = "medium" <-> 0.45 <= s /\ s < 0.65) /\
    (determine_confidence s = "low" <-> s < 0.45) /\
    (s < 0 -> determine_confidence s = "low") /\
    (1 < s -> determine_confidence s = "high") /\
    determine_confidence 0.65 = "high" /\
    determine_confidence 0.649999 = "medium" /\
    determine_confidence 0.45 = "medium" /\
    determine_confidence 0.449999 = "low".
Proof.
  intros s.
  split; [apply determine_confidence_high|].
  split; [apply determine_confidence_medium|].
  split; [apply determine_confidence_low|].
  split; [intros H; apply determine_confidence_low; lra|].
  split; [intros H; apply determine_confidence_high; lra|].
  repeat split; reflexivity.
Qed.

(** ** The escalation policy *)

Section TriageProperties.

Variable api : string -> result completion.
Variable repr : json -> string.

Lemma medium_block_run (q : string) (t : list event) :
  medium_block api repr q "medium" t =
  match api q with
  | Raise e => (Raise e, (t ++ [SentimentCall q])%list)
  | Ok response =>
      match parse_response response with
      | JObj fields =>
          (Ok (if alarming fields then Some (sentiment_decision repr fields) else None),
           (t ++ [SentimentCall q])%list)
      | _ => (Raise AttributeError, (t ++ [SentimentCall q])%list)
      end
  end.
Proof.
  unfold medium_block, check_sentiment, or_else, bind, call, ret; simpl.
  destruct (api q) as [response|e]; [|reflexivity].
  destruct (parse_response response) as [| | | | |fields]; try reflexivity.
  unfold alarming, py_get, ret, sentiment_decision; simpl.
  destruct (eq_str (dict_get "urgency" fields) "high"); simpl;
    [reflexivity|].
  destruct (eq_str (dict_get "sentiment" fields) "negative"); reflexivity.
Qed.

(** The low tier: the first [return] of [should_escalate]. *)
Lemma should_escalate_low (q : string) (s : Q) :
  determine_confidence s = "low" ->
  run (should_escalate api repr q s) =
  (Ok {| escalate := true;
         reason := "Low confidence in automated response";
         confidence := "low" |}, []).
Proof.
  intros H. unfold run, should_escalate. rewrite H. reflexivity.
Qed.

(** An explicit request above the low tier: the second [return]. *)
Lemma should_escalate_explicit (q : string) (s : Q) :
  determine_confidence s <> "low" ->
  explicit_request q = true ->
  run (should_escalate api repr q s) =
  (Ok {| escalate := true;
         reason := "Customer explicitly requested human assistance";
         confidence := determine_confidence s |}, []).
Proof.
  intros Hs Hq. unfold run, should_escalate. rewrite Hq.
  destruct (String.eqb_spec (determine_confidence s) "low");
    [contradiction | reflexivity].
Qed.

(** The high tier without an explicit request: the last [return]. *)
Lemma should_escalate_high (q : string) (s : Q) :
  determine_confidence s = "high" ->
  explicit_request q = false ->
  run (should_escalate api repr q s) =
  (Ok {| escalate := false;
         reason := "High confidence in automated response";
         confidence := "high" |}, []).
Proof.
  intros Hs Hq. unfold run, should_escalate. rewrite Hq, Hs. reflexivity.
Qed.

(** The medium tier without an explicit request: the sentiment check. *)
Lemma should_escalate_medium (q : string) (s : Q) :
  determine_confidence s = "medium" ->
  explicit_request q = false ->
  run (should_escalate api repr q s) =
  match api q with
  | Raise e => (Raise e, [SentimentCall q])
  | Ok response =>
      match parse_response response with
      | JObj fields =>
          (Ok (if alarming fields then sentiment_decision repr fields
               else {| escalate := false;
                       reason := "Medium confidence in automated response";
                       confidence := "medium" |}),
           [SentimentCall q])
      | _ => (Raise AttributeError, [SentimentCall q])
      end
  end.
Proof.
  intros Hs Hq. unfold run, should_escalate. rewrite Hq, Hs.
  change ("medium" =? "low") with false. unfold bind. cbv beta iota.
  rewrite medium_block_run. simpl app.
  destruct (api q) as [response|e]; [|reflexivity].
  destruct (parse_response response) as [| | | | |fields]; try reflexivity.
  destruct (alarming fields); reflexivity.
Qed.

End TriageProperties.

Lemma alarming_spec (fields : list (string * json)) :
  alarming fields = true <->
  dict_get "urgency" fields = Some (JStr "high")
  \/ dict_get "sentiment" fields = Some (JStr "negative").
Proof.
  assert (E : forall v s, eq_str v s = true <-> v = Some (JStr s)).
  { intros [[| | | s' | |]|] s; simpl; try (split; [discriminate | intros H; discriminate H]).
    rewrite String.eqb_eq. split; [now intros -> | intros H; now injection H]. }
  unfold alarming. now rewrite orb_true_iff, !E.
Qed.

(** C1, as the code has it. For every query and every similarity below 0.45,
    [should_escalate] returns escalate = true, confidence "low" and the reason
    "Low confidence in automated response" (with a capital L), whatever the
    query contains and whatever the sentiment API would answer; no external
    call is made. *)
Theorem low_tier_escalates :
  forall (api : string -> result completion) (repr : json -> string)
         (q : string) (s : Q),
    s < 0.45 ->
    run (should_escalate api repr q s) =
    (Ok {| escalate := true;
           reason := "Low confidence in automated response";
           confidence := "low" |}, []).
Proof.
  intros api repr q s H. apply should_escalate_low.
  now apply determine_confidence_low.
Qed.

Lemma low_tier_escalates_witness :
  0.1 < 0.45 /\
  run (should_escalate Samples.api_down Samples.repr "my parcel is late" 0.1) =
  (Ok {| escalate := true;
         reason := "Low confidence in automated response";
         confidence := "low" |}, []).
Proof.
  split; [reflexivity | apply low_tier_escalates; reflexivity].
Defined.

(** C1 as stated fails: at similarity 0.1 the reason is not the all-lowercase
    text. *)
Lemma low_tier_reason_not_lowercase :
  exists d,
    run (should_escalate Samples.api_down Samples.repr "my parcel is late" 0.1) = (Ok d, [])
    /\ escalate d = true
    /\ reason d <> "low confidence in automated response".
Proof.
  eexists. split; [reflexivity|]. split; [reflexivity | discriminate].
Qed.

(** C2, as the code has it. For every query that contains, up to case, one of
    the four phrases, and every similarity whose tier is "high" or "medium",
    [should_escalate] returns escalate = true with the reason
    "Customer explicitly requested human assistance" (with a capital C) and
    the tier of the similarity; the sentiment API is not called. *)
Theorem explicit_request_escalates :
  forall (api : string -> result completion) (repr : json -> string)
         (q : string) (s : Q),
    requests_human q ->
    determine_confidence s = "high" \/ determine_confidence s = "medium" ->
    run (should_escalate api repr q s) =
    (Ok {| escalate := true;
           reason := "Customer explicitly requested human assistance";
           confidence := determine_confidence s |}, []).
Proof.
  intros api repr q s Hq Hs. apply should_escalate_explicit.
  - destruct Hs as [H|H]; rewrite H; discriminate.
  - now apply explicit_request_spec.
Qed.

Lemma explicit_request_escalates_witness :
  requests_human "I want to Talk to Agent please" /\
  (determine_confidence 0.5 = "high" \/ determine_confidence 0.5 = "medium") /\
  run (should_escalate (Samples.api_says (Samples.sentiment_reply "high" "negative"))
                       Samples.repr "I want to Talk to Agent please" 0.5) =
  (Ok {| escalate := true;
         reason := "Customer explicitly requested human assistance";
         confidence := determine_confidence 0.5 |}, []).
Proof.
  assert (Hq : requests_human "I want to Talk to Agent please")
    by (apply explicit_request_spec; reflexivity).
  split; [exact Hq|]. split; [right; reflexivity|].
  apply explicit_request_escalates; [exact Hq | right; reflexivity].
Defined.

(** C2 as stated fails: the reason is not the all-lowercase text. *)
Lemma explicit_request_reason_not_lowercase :
  exists d,
    run (should_escalate Samples.api_down Samples.repr
                         "I want to talk to agent please" 0.9) = (Ok d, [])
    /\ escalate d = true
    /\ reason d <> "customer explicitly requested human assistance".
Proof.
  eexists. split; [reflexivity|]. split; [reflexivity | discriminate].
Qed.

(** C5, as the code has it. For every query without a human-request phrase
    and every similarity of at least 0.65, [should_escalate] makes no external
    call and returns escalate = false with the reason
    "High confidence in automated response" (with a capital H); so the result
    is the same for any two sentiment APIs. *)
Theorem high_tier_ignores_probe :
  forall (api : string -> result completion) (repr : json -> string)
         (q : string) (s : Q),
    ~ requests_human q ->
    0.65 <= s ->
    run (should_escalate api repr q s) =
    (Ok {| escalate := false;
           reason := "High confidence in automated response";
           confidence := "high" |}, [])
    /\ forall (api' : string -> result completion) (repr' : json -> string),
         run (should_escalate api' repr' q s) = run (should_escalate api repr q s).
Proof.
  intros api repr q s Hq Hs.
  apply explicit_request_false in Hq. apply determine_confidence_high in Hs.
  split.
  - now apply should_escalate_high.
  - intros api' repr'. now rewrite !should_escalate_high.
Qed.

Lemma high_tier_ignores_probe_witness :
  ~ requests_human "where is my order" /\ 0.65 <= 0.8 /\
  run (should_escalate (Samples.api_says (Samples.sentiment_reply "high" "negative"))
                       Samples.repr "where is my order" 0.8) =
  (Ok {| escalate := false;
         reason := "High confidence in automated response";
         confidence := "high" |}, []).
Proof.
  assert (Hq : ~ requests_human "where is my order")
    by (apply explicit_request_false; reflexivity).
  assert (Hs : 0.65 <= 0.8) by (unfold Qle; simpl; lia).
  split; [exact Hq|]. split; [exact Hs|].
  exact (proj1 (high_tier_ignores_probe _ _ _ _ Hq Hs)).
Defined.

(** C5 as stated fails: the reason is not the all-lowercase text. *)
Lemma high_tier_reason_not_lowercase :
  exists d,
    run (should_escalate Samples.api_down Samples.repr "where is my order" 0.8) = (Ok d, [])
    /\ escalate d = false
    /\ reason d <> "high confidence in automated response".
Proof.
  eexists. split; [reflexivity|]. split; [reflexivity | discriminate].
Qed.

(** C3, as the code has it. For every query without a human-request phrase
    and every similarity in [0.45, 0.65), when the sentiment call returns and
    its reply yields a dict, [should_escalate] calls the sentiment API exactly
    once and returns: escalate = true with the reason
    "Customer query shows {sentiment} sentiment with {urgency} urgency" if the
    urgency is "high" or the sentiment is "negative"; otherwise
    escalate = false with the reason "Medium confidence in automated
    response".  Both reasons start with a capital letter. *)
Theorem medium_tier_follows_sentiment :
  forall (api : string -> result completion) (repr : json -> string)
         (q : string) (s : Q) (response : completion)
         (fields : list (string * json)),
    ~ requests_human q ->
    0.45 <= s -> s < 0.65 ->
    api q = Ok response ->
    parse_response response = JObj fields ->
    exists d,
      run (should_escalate api repr q s) = (Ok d, [SentimentCall q])
      /\ (dict_get "urgency" fields = Some (JStr "high")
          \/ dict_get "sentiment" fields = Some (JStr "negative") ->
          d = {| escalate := true;
                 reason := "Customer query shows "
                           ++ format_value repr (dict_get "sentiment" fields)
                           ++ " sentiment with "
                           ++ format_value repr (dict_get "urgency" fields)
                           ++ " urgency";
                 confidence := "medium" |})
      /\ (~ (dict_get "urgency" fields = Some (JStr "high")
             \/ dict_get "sentiment" fields = Some (JStr "negative")) ->
          d = {| escalate := false;
                 reason := "Medium confidence in automated response";
                 confidence := "medium" |}).
Proof.
  intros api repr q s response fields Hq Hlo Hhi Hapi Hparse.
  apply explicit_request_false in Hq.
  assert (Hs : determine_confidence s = "medium")
    by (apply determine_confidence_medium; now split).
  rewrite (should_escalate_medium api repr q s Hs Hq), Hapi, Hparse.
  eexists. split; [reflexivity|].
  rewrite <- alarming_spec.
  destruct (alarming fields); split; intros H;
    [reflexivity | contradiction | discriminate | reflexivity].
Qed.

Lemma medium_tier_follows_sentiment_witness :
  ~ requests_human "my parcel is late" /\ 0.45 <= 0.5 /\ 0.5 < 0.65 /\
  run (should_escalate (Samples.api_says (Samples.sentiment_reply "high" "negative"))
                       Samples.repr "my parcel is late" 0.5) =
  (Ok {| escalate := true;
         reason := "Customer query shows negative sentiment with high urgency";
         confidence := "medium" |},
   [SentimentCall "my parcel is late"]).
Proof.
  assert (Hq : ~ requests_human "my parcel is late")
    by (apply explicit_request_false; reflexivity).
  assert (Hlo : 0.45 <= 0.5) by (unfold Qle; simpl; lia).
  assert (Hhi : 0.5 < 0.65) by reflexivity.
  split; [exact Hq|]. split; [exact Hlo|]. split; [exact Hhi|].
  destruct (medium_tier_follows_sentiment
              (Samples.api_says (Samples.sentiment_reply "high" "negative"))
              Samples.repr "my parcel is late" 0.5
              (Samples.sentiment_reply "high" "negative")
              [("urgency", JStr "high"); ("sentiment", JStr "negative")]
              Hq Hlo Hhi eq_refl eq_refl) as [d [Hrun [Hyes _]]].
  rewrite Hrun, Hyes; [reflexivity | left; reflexivity].
Defined.

(** C3 as stated fails: with a calm reply at similarity 0.5 the decision does
    not escalate, and its reason is not the all-lowercase text. *)
Lemma medium_tier_reason_not_lowercase :
  exists d,
    run (should_escalate (Samples.api_says (Samples.sentiment_reply "low" "positive"))
                         Samples.repr "my parcel is late" 0.5)
    = (Ok d, [SentimentCall "my parcel is late"])
    /\ escalate d = false
    /\ reason d <> "medium confidence in automated response".
Proof.
  eexists. split; [reflexivity|]. split; [reflexivity | discriminate].
Qed.

(** An exception of the sentiment call leaves [check_sentiment] as it is. *)
Lemma check_sentiment_propagates
    (api : string -> result completion) (q : string) (e : exn) :
  api q = Raise e ->
  run (check_sentiment api q) = (Raise e, [SentimentCall q]).
Proof.
  intros H. unfold run, check_sentiment, bind, call. now rewrite H.
Qed.

Lemma parse_response_undecodable (response : completion) :
  undecodable response -> parse_response response = default_sentiment.
Proof.
  destruct response as [|[|s [v|]] r]; simpl; intros H;
    [reflexivity | reflexivity | contradiction | reflexivity].
Qed.

(** Whenever [should_escalate] returns, its confidence is the tier. *)
Lemma should_escalate_confidence
    (api : string -> result completion) (repr : json -> string)
    (q : string) (s : Q) (d : decision) (t : list event) :
  run (should_escalate api repr q s) = (Ok d, t) ->
  confidence d = determine_confidence s.
Proof.
  intros H.
  destruct (explicit_request q) eqn:Hq;
    destruct (determine_confidence_range s) as [Hs|[Hs|Hs]].
  - rewrite should_escalate_explicit in H by (rewrite ?Hs; congruence).
    now injection H as <- _.
  - rewrite should_escalate_explicit in H by (rewrite ?Hs; congruence).
    now injection H as <- _.
  - rewrite should_escalate_low in H by assumption.
    injection H as <- _. now rewrite Hs.
  - rewrite should_escalate_high in H by assumption.
    injection H as <- _. now rewrite Hs.
  - rewrite should_escalate_medium in H by assumption. rewrite Hs.
    destruct (api q) as [response|e]; [|discriminate].
    destruct (parse_response response) as [| | | | |fields]; try discriminate.
    injection H as <- _. now destruct (alarming fields).
  - rewrite should_escalate_low in H by assumption.
    injection H as <- _. now rewrite Hs.
Qed.

(** C6, as the code has it. When the sentiment call returns but its reply
    does not decode (no choice, no content, or text that [json.loads]
    rejects), [check_sentiment] returns the default
    {urgency: "low", sentiment: "neutral"} instead of raising, and
    [should_escalate] returns a decision, with the tier of the similarity as
    its confidence, for every query and similarity. *)
Theorem undecodable_reply_degrades :
  forall (api : string -> result completion) (repr : json -> string)
         (q : string) (s : Q) (response : completion),
    api q = Ok response ->
    undecodable response ->
    run (check_sentiment api q) = (Ok default_sentiment, [SentimentCall q])
    /\ exists d t,
         run (should_escalate api repr q s) = (Ok d, t)
         /\ confidence d = determine_confidence s.
Proof.
  intros api repr q s response Hapi Hun.
  apply parse_response_undecodable in Hun.
  split.
  - unfold run, check_sentiment, bind, call, ret. now rewrite Hapi, Hun.
  - assert (Hrun : exists d t, run (should_escalate api repr q s) = (Ok d, t)).
    { destruct (explicit_request q) eqn:Hq;
        destruct (determine_confidence_range s) as [Hs|[Hs|Hs]].
      - rewrite should_escalate_explicit by (rewrite ?Hs; congruence). eauto.
      - rewrite should_escalate_explicit by (rewrite ?Hs; congruence). eauto.
      - rewrite should_escalate_low by assumption. eauto.
      - rewrite should_escalate_high by assumption. eauto.
      - rewrite should_escalate_medium, Hapi, Hun by assumption. simpl. eauto.
      - rewrite should_escalate_low by assumption. eauto. }
    destruct Hrun as [d [t Hrun]]. exists d, t. split; [exact Hrun|].
    exact (should_escalate_confidence _ _ _ _ _ _ Hrun).
Qed.

Lemma undecodable_reply_degrades_witness :
  undecodable Samples.garbled_reply /\
  run (check_sentiment (Samples.api_says Samples.garbled_reply) "my parcel is late")
  = (Ok default_sentiment, [SentimentCall "my parcel is late"]).
Proof.
  split; [exact I|].
  exact (proj1 (undecodable_reply_degrades
                  (Samples.api_says Samples.garbled_reply) Samples.repr
                  "my parcel is late" 0.5 Samples.garbled_reply eq_refl I)).
Defined.

(** C6 as stated fails: when the sentiment call itself raises, the exception
    leaves [check_sentiment], and leaves [should_escalate] at the medium
    tier. *)
Lemma api_failure_is_surfaced :
  run (check_sentiment Samples.api_down "my parcel is late")
  = (Raise APIError, [SentimentCall "my parcel is late"])
  /\ run (should_escalate Samples.api_down Samples.repr "my parcel is late" 0.5)
     = (Raise APIError, [SentimentCall "my parcel is late"]).
Proof. split; reflexivity. Qed.

(** A reply that decodes to something other than a dict is returned by
    [check_sentiment] as it is; the [.get] of [should_escalate] then raises. *)
Lemma non_dict_reply_raises :
  run (check_sentiment (Samples.api_says Samples.list_reply) "my parcel is late")
  = (Ok (JArr []), [SentimentCall "my parcel is late"])
  /\ run (should_escalate (Samples.api_says Samples.list_reply) Samples.repr
                          "my parcel is late" 0.5)
     = (Raise AttributeError, [SentimentCall "my parcel is late"]).
Proof. split; reflexivity. Qed.

(** C10. In every branch, a decision returned by
    [should_escalate query top_similarity] has as its confidence
    [determine_confidence top_similarity]. *)
Theorem decision_confidence_is_tier :
  forall (api : string -> result completion) (repr : json -> string)
         (q : string) (s : Q) (d : decision) (t : list event),
    run (should_escalate api repr q s) = (Ok d, t) ->
    confidence d = determine_confidence s.
Proof.
  intros api repr q s d t H.
  exact (should_escalate_confidence api repr q s d t H).
Qed.

Lemma decision_confidence_is_tier_witness :
  confidence
    {| escalate := true;
       reason := "Customer query shows negative sentiment with high urgency";
       confidence := "medium" |}
  = determine_confidence 0.5.
Proof.
  apply (decision_confidence_is_tier
           (Samples.api_says (Samples.sentiment_reply "high" "negative"))
           Samples.repr "my parcel is late" 0.5 _
           [SentimentCall "my parcel is late"]).
  reflexivity.
Defined.

(** ** Retrieval *)

Lemma skipn_cons_nth {A} (l : list A) (k : nat) :
  (k < List.length l)%nat ->
  exists x, nth_error l k = Some x /\ skipn k l = x :: skipn (S k) l.
Proof.
  revert k; induction l as [|a l IH]; intros k H; simpl in H; [lia|].
  destruct k as [|k].
  - now exists a.
  - destruct (IH k) as [x [Hn Hs]]; [lia|]. exists x. now split.
Qed.

(** The loop over the indices [k, k+1, ..., k+m-1], when they end at the
    common length of the three lists. *)
Lemma format_loop_skipn (r : store_results) (m k : nat)
    (acc : list ticket) (t : list event) :
  (k + m)%nat = List.length (documents r) ->
  List.length (distances r) = List.length (documents r) ->
  List.length (ids r) = List.length (documents r) ->
  format_loop r (seq k m) acc t =
  (Ok (acc ++ zip_tickets (skipn k (documents r)) (skipn k (distances r))
                          (skipn k (ids r)))%list, t).
Proof.
  revert k acc; induction m as [|m IH]; intros k acc Hk Hd Hi.
  - rewrite !skipn_all2 by lia. simpl. now rewrite app_nil_r.
  - destruct (skipn_cons_nth (documents r) k) as [c [Hc Hc']]; [lia|].
    destruct (skipn_cons_nth (distances r) k) as [d [Hdn Hd']]; [lia|].
    destruct (skipn_cons_nth (ids r) k) as [x [Hx Hx']]; [lia|].
    cbn [seq format_loop]. unfold bind, index. rewrite Hc, Hdn, Hx. unfold ret.
    rewrite IH by lia. rewrite Hc', Hd', Hx'. cbn [zip_tickets].
    now rewrite <- app_assoc.
Qed.

(** With lists of one length, [retrieve_relevant_tickets] queries the store
    once and pairs the lists up position by position. *)
Lemma retrieve_relevant_tickets_run
    (store : string -> nat -> result store_results)
    (q : string) (n : nat) (r : store_results) :
  store q n = Ok r ->
  List.length (distances r) = List.length (documents r) ->
  List.length (ids r) = List.length (documents r) ->
  run (retrieve_relevant_tickets store q n) =
  (Ok {| results := zip_tickets (documents r) (distances r) (ids r);
         top_similarity := top_of (distances r) |},
   [StoreQuery q n]).
Proof.
  intros Hs Hd Hi. unfold run, retrieve_relevant_tickets, bind, call.
  rewrite Hs. rewrite format_loop_skipn by (simpl; lia). reflexivity.
Qed.

(** C7. For every query and every answer of the vector store (three lists of
    one length), [retrieve_relevant_tickets] returns top_similarity = 0 when
    the distance list is empty, and otherwise top_similarity = 1.0 minus the
    first distance, which is the similarity of the first record. *)
Theorem top_similarity_is_first :
  forall (store : string -> nat -> result store_results)
         (q : string) (n : nat) (r : store_results),
    store q n = Ok r ->
    List.length (distances r) = List.length (documents r) ->
    List.length (ids r) = List.length (documents r) ->
    exists res,
      run (retrieve_relevant_tickets store q n) = (Ok res, [StoreQuery q n])
      /\ (distances r = [] -> results res = [] /\ top_similarity res = 0)
      /\ (forall d ds, distances r = d :: ds ->
             top_similarity res = 1.0 - d
             /\ exists first rest,
                  results res = first :: rest
                  /\ similarity first = top_similarity res).
Proof.
  intros store q n r Hs Hd Hi.
  rewrite (retrieve_relevant_tickets_run store q n r Hs Hd Hi).
  eexists. split; [reflexivity|]. cbn [results top_similarity].
  destruct r as [docs idents dists]; simpl in *. split.
  - intros ->. simpl in Hd. destruct docs; [now split | discriminate].
  - intros d ds ->. split; [reflexivity|].
    destruct docs as [|c docs]; [discriminate|].
    destruct idents as [|x idents]; [discriminate|].
    simpl. eauto.
Qed.

Lemma top_similarity_is_first_witness :
  exists res,
    run (retrieve_relevant_tickets (Samples.store_says Samples.two_near) "late parcel" 3)
    = (Ok res, [StoreQuery "late parcel" 3])
    /\ top_similarity res = 1.0 - 0.2
    /\ exists first rest,
         results res = first :: rest /\ similarity first = top_similarity res.
Proof.
  destruct (top_similarity_is_first (Samples.store_says Samples.two_near)
              "late parcel" 3 Samples.two_near eq_refl eq_refl eq_refl)
    as [res [Hrun [_ Hfirst]]].
  exists res. split; [exact Hrun|].
  exact (Hfirst 0.2 [0.4] eq_refl).
Defined.

(** The similarities of the records are normalised exactly when the
    distances are. *)
Lemma zip_tickets_normalised (docs : list string) (dists : list Q) (idents : list string) :
  List.length dists = List.length docs ->
  List.length idents = List.length docs ->
  (Forall (fun tk => normalised (similarity tk)) (zip_tickets docs dists idents)
   <-> Forall normalised dists).
Proof.
  revert dists idents; induction docs as [|c docs IH]; intros dists idents Hd Hi.
  - destruct dists; [|discriminate]. simpl. split; constructor.
  - destruct dists as [|d dists]; [discriminate|].
    destruct idents as [|x idents]; [discriminate|].
    simpl in *. injection Hd as Hd. injection Hi as Hi.
    rewrite !Forall_cons_iff, (IH dists idents Hd Hi).
    unfold normalised; simpl. split; intros [[H1 H2] H3]; (split; [split; lra | exact H3]).
Qed.

(** C9, on the code. With one ticket at distance 1.5 the record's similarity
    and the top similarity are 1.0 - 1.5, which is below 0. *)
Theorem similarity_leaves_range :
  exists tk,
    run (retrieve_relevant_tickets (Samples.store_says Samples.one_far) "opening times" 3)
    = (Ok {| results := [tk]; top_similarity := 1.0 - 1.5 |},
       [StoreQuery "opening times" 3])
    /\ similarity tk = 1.0 - 1.5
    /\ similarity tk < 0
    /\ ~ normalised (similarity tk)
    /\ determine_confidence (similarity tk) = "low".
Proof.
  eexists. split; [reflexivity|]. split; [reflexivity|].
  split; [reflexivity|]. split; [|reflexivity].
  unfold normalised; simpl. intros [H _]. revert H. unfold Qle; simpl; lia.
Qed.

(** ** Response composition *)

Lemma append_cancel (a x y : string) : a ++ x = a ++ y -> x = y.
Proof.
  induction a as [|c a IH]; simpl; intros H; [exact H|].
  injection H as H. now apply IH.
Qed.

(** The escalation prompt differs from the other two, whatever is spliced
    into them. *)
Lemma escalate_prompt_apart (q c r q' c' : string) :
  escalate_prompt q c r <> high_prompt q' c'
  /\ escalate_prompt q c r <> medium_prompt q' c'.
Proof. split; discriminate. Qed.

(** For one query and context, the high and the medium prompt differ. *)
Lemma high_prompt_apart (q c : string) :
  high_prompt q c <> medium_prompt q c.
Proof.
  unfold high_prompt, medium_prompt. intros H.
  repeat apply append_cancel in H.
  discriminate H.
Qed.

Lemma system_prompt_cases (q c : string) (d : decision) :
  (escalate d = true -> system_prompt q c d = escalate_prompt q c (reason d))
  /\ (escalate d = false -> confidence d = "high" ->
      system_prompt q c d = high_prompt q c)
  /\ (escalate d = false -> confidence d <> "high" ->
      system_prompt q c d = medium_prompt q c).
Proof.
  unfold system_prompt. repeat split.
  - now intros ->.
  - now intros -> ->.
  - intros -> H. now destruct (String.eqb_spec (confidence d) "high").
Qed.

(** C8. For every query, context and triage decision, when the generation
    call answers with at least one choice, [generate_response] returns a
    response whose confidence, should_escalate and reason are the decision's
    confidence, escalate and reason; the one request it sends carries the
    escalation prompt when escalate is true, else the high prompt when the
    confidence is "high", else the medium prompt; and the three prompts are
    pairwise different. *)
Theorem generate_response_frame :
  forall (generate : string -> string -> result completion)
         (q c : string) (d : decision)
         (first : message_content) (others : completion),
    generate (system_prompt q c d) q = Ok (first :: others) ->
    exists text,
      text = match first with NoContent => None | Text s _ => Some s end
      /\ run (generate_response generate q c d) =
      (Ok {| Response.response_text := text;
             Response.confidence := confidence d;
             Response.should_escalate := escalate d;
             Response.reason := reason d |},
       [GenerateCall (system_prompt q c d) q])
      /\ (escalate d = true ->
          system_prompt q c d = escalate_prompt q c (reason d))
      /\ (escalate d = false -> confidence d = "high" ->
          system_prompt q c d = high_prompt q c)
      /\ (escalate d = false -> confidence d <> "high" ->
          system_prompt q c d = medium_prompt q c)
      /\ escalate_prompt q c (reason d) <> high_prompt q c
      /\ escalate_prompt q c (reason d) <> medium_prompt q c
      /\ high_prompt q c <> medium_prompt q c.
Proof.
  intros generate q c d first others H.
  exists (match first with NoContent => None | Text s _ => Some s end).
  split; [reflexivity|]. split.
  - unfold run, generate_response, bind, call. rewrite H.
    destruct first; reflexivity.
  - destruct (system_prompt_cases q c d) as [H1 [H2 H3]].
    destruct (escalate_prompt_apart q c (reason d) q c) as [H4 H5].
    repeat split; auto using high_prompt_apart.
Qed.

Lemma generate_response_frame_witness :
  exists text,
    text = Some "We are open from 9 to 5."
    /\ run (generate_response (Samples.generate_says "We are open from 9 to 5.")
           "when are you open" "RELEVANT TICKET #1"
           {| escalate := false;
              reason := "High confidence in automated response";
              confidence := "high" |}) =
    (Ok {| Response.response_text := text;
           Response.confidence := "high";
           Response.should_escalate := false;
           Response.reason := "High confidence in automated response" |},
     [GenerateCall (high_prompt "when are you open" "RELEVANT TICKET #1")
                   "when are you open"]).
Proof.
  destruct (generate_response_frame
              (Samples.generate_says "We are open from 9 to 5.")
              "when are you open" "RELEVANT TICKET #1"
              {| escalate := false;
                 reason := "High confidence in automated response";
                 confidence := "high" |}
              (Text "We are open from 9 to 5." None) [] eq_refl)
    as [text [Htext [Hrun _]]].
  exists text. split; [exact Htext | exact Hrun].
Defined.

(** * Further properties of the code *)

(** ** Triage *)

(** X1. [determine_confidence] is monotone: a larger similarity never gets a
    lower tier. *)
Theorem determine_confidence_monotone :
  forall s1 s2 : Q,
    s1 <= s2 ->
    (tier_rank (determine_confidence s1) <= tier_rank (determine_confidence s2))%nat.
Proof.
  intros s1 s2 H.
  destruct (determine_confidence_range s1) as [H1|[H1|H1]];
    destruct (determine_confidence_range s2) as [H2|[H2|H2]];
    rewrite H1, H2; cbn; try lia; exfalso;
    try apply determine_confidence_high in H1;
    try apply determine_confidence_medium in H1;
    try apply determine_confidence_medium in H2;
    try apply determine_confidence_low in H2;
    lra.
Qed.

Lemma determine_confidence_monotone_witness :
  0.5 <= 0.7 /\
  (tier_rank (determine_confidence 0.5) <= tier_rank (determine_confidence 0.7))%nat.
Proof.
  assert (H : 0.5 <= 0.7) by (unfold Qle; simpl; lia).
  split; [exact H | exact (determine_confidence_monotone 0.5 0.7 H)].
Defined.

(** X2. Whatever the sentiment API answers, and whether [should_escalate]
    returns or raises, the calls it makes are: one sentiment request, for the
    query as given, at the medium tier without an explicit request; none
    otherwise.  It never calls the store or the generator. *)
Theorem should_escalate_calls :
  forall (api : string -> result completion) (repr : json -> string)
         (q : string) (s : Q),
    snd (run (should_escalate api repr q s)) = expected_calls q s.
Proof.
  intros api repr q s. unfold expected_calls.
  destruct (explicit_request q) eqn:Hq;
    destruct (determine_confidence_range s) as [Hs|[Hs|Hs]].
  - rewrite should_escalate_explicit by (rewrite ?Hs; congruence).
    now rewrite andb_false_r.
  - rewrite should_escalate_explicit by (rewrite ?Hs; congruence).
    now rewrite andb_false_r.
  - rewrite should_escalate_low by assumption. now rewrite Hs.
  - rewrite should_escalate_high by assumption. now rewrite Hs.
  - rewrite should_escalate_medium by assumption. rewrite Hs. simpl.
    destruct (api q) as [response|e]; [|reflexivity].
    now destruct (parse_response response).
  - rewrite should_escalate_low by assumption. now rewrite Hs.
Qed.

(** X3. At the medium tier without an explicit request, an exception of the
    sentiment call leaves [should_escalate] unchanged, after that one call:
    no decision is produced. *)
Theorem sentiment_exception_propagates :
  forall (api : string -> result completion) (repr : json -> string)
         (q : string) (s : Q) (e : exn),
    ~ requests_human q ->
    0.45 <= s -> s < 0.65 ->
    api q = Raise e ->
    run (should_escalate api repr q s) = (Raise e, [SentimentCall q]).
Proof.
  intros api repr q s e Hq Hlo Hhi Hapi.
  apply explicit_request_false in Hq.
  rewrite should_escalate_medium, Hapi; [reflexivity | | exact Hq].
  apply determine_confidence_medium. now split.
Qed.

Lemma sentiment_exception_propagates_witness :
  ~ requests_human "my parcel is late" /\ 0.45 <= 0.45 /\ 0.45 < 0.65 /\
  run (should_escalate Samples.api_down Samples.repr "my parcel is late" 0.45)
  = (Raise APIError, [SentimentCall "my parcel is late"]).
Proof.
  assert (Hq : ~ requests_human "my parcel is late")
    by (apply explicit_request_false; reflexivity).
  assert (Hlo : 0.45 <= 0.45) by (unfold Qle; simpl; lia).
  assert (Hhi : 0.45 < 0.65) by reflexivity.
  split; [exact Hq|]. split; [exact Hlo|]. split; [exact Hhi|].
  exact (sentiment_exception_propagates Samples.api_down Samples.repr
           "my parcel is late" 0.45 APIError Hq Hlo Hhi eq_refl).
Defined.

(** X4. At the medium tier without an explicit request, a reply that decodes
    to JSON other than an object (a list, a string, a number, a boolean,
    null) makes [should_escalate] raise [AttributeError]: the fallback of
    [check_sentiment] covers decoding failures only. *)
Theorem non_object_reply_raises :
  forall (api : string -> result completion) (repr : json -> string)
         (q : string) (s : Q) (text : string) (v : json) (others : completion),
    ~ requests_human q ->
    0.45 <= s -> s < 0.65 ->
    api q = Ok (Text text (Some v) :: others) ->
    (forall fields, v <> JObj fields) ->
    run (should_escalate api repr q s) = (Raise AttributeError, [SentimentCall q]).
Proof.
  intros api repr q s text v others Hq Hlo Hhi Hapi Hv.
  apply explicit_request_false in Hq.
  rewrite should_escalate_medium, Hapi; [| | exact Hq].
  - simpl. destruct v; try reflexivity. now destruct (Hv fields).
  - apply determine_confidence_medium. now split.
Qed.

Lemma non_object_reply_raises_witness :
  ~ requests_human "my parcel is late" /\ 0.45 <= 0.5 /\ 0.5 < 0.65 /\
  run (should_escalate (Samples.api_says Samples.list_reply) Samples.repr
                       "my parcel is late" 0.5)
  = (Raise AttributeError, [SentimentCall "my parcel is late"]).
Proof.
  assert (Hq : ~ requests_human "my parcel is late")
    by (apply explicit_request_false; reflexivity).
  assert (Hlo : 0.45 <= 0.5) by (unfold Qle; simpl; lia).
  assert (Hhi : 0.5 < 0.65) by reflexivity.
  split; [exact Hq|]. split; [exact Hlo|]. split; [exact Hhi|].
  apply (non_object_reply_raises (Samples.api_says Samples.list_reply) Samples.repr
           "my parcel is late" 0.5 "[]" (JArr []) [] Hq Hlo Hhi eq_refl).
  intros fields H. discriminate H.
Defined.

(** X5. The sentiment check fails open: at the medium tier without an
    explicit request, a reply that does not decode is treated as calm, and
    the query is not escalated. *)
Theorem undecodable_reply_not_escalated :
  forall (api : string -> result completion) (repr : json -> string)
         (q : string) (s : Q) (response : completion),
    ~ requests_human q ->
    0.45 <= s -> s < 0.65 ->
    api q = Ok response ->
    undecodable response ->
    run (should_escalate api repr q s) =
    (Ok {| escalate := false;
           reason := "Medium confidence in automated response";
           confidence := "medium" |}, [SentimentCall q]).
Proof.
  intros api repr q s response Hq Hlo Hhi Hapi Hun.
  apply explicit_request_false in Hq.
  apply parse_response_undecodable in Hun.
  rewrite should_escalate_medium, Hapi, Hun; [reflexivity | | exact Hq].
  apply determine_confidence_medium. now split.
Qed.

Lemma undecodable_reply_not_escalated_witness :
  ~ requests_human "my parcel is late" /\ 0.45 <= 0.5 /\ 0.5 < 0.65 /\
  undecodable Samples.garbled_reply /\
  run (should_escalate (Samples.api_says Samples.garbled_reply) Samples.repr
                       "my parcel is late" 0.5) =
  (Ok {| escalate := false;
         reason := "Medium confidence in automated response";
         confidence := "medium" |}, [SentimentCall "my parcel is late"]).
Proof.
  assert (Hq : ~ requests_human "my parcel is late")
    by (apply explicit_request_false; reflexivity).
  assert (Hlo : 0.45 <= 0.5) by (unfold Qle; simpl; lia).
  assert (Hhi : 0.5 < 0.65) by reflexivity.
  split; [exact Hq|]. split; [exact Hlo|]. split; [exact Hhi|]. split; [exact I|].
  exact (undecodable_reply_not_escalated
           (Samples.api_says Samples.garbled_reply) Samples.repr
           "my parcel is late" 0.5 Samples.garbled_reply Hq Hlo Hhi eq_refl I).
Defined.

(** X6. [should_escalate] declines to escalate only above the low tier and
    only for a query without a human-request phrase; the reason is then the
    capitalised tier followed by " confidence in automated response". *)
Theorem no_escalation_only_when_safe :
  forall (api : string -> result completion) (repr : json -> string)
         (q : string) (s : Q) (d : decision) (t : list event),
    run (should_escalate api repr q s) = (Ok d, t) ->
    escalate d = false ->
    0.45 <= s
    /\ ~ requests_human q
    /\ reason d = PyStr.capitalize (determine_confidence s)
                  ++ " confidence in automated response".
Proof.
  intros api repr q s d t H Hd.
  destruct (explicit_request q) eqn:Hq;
    destruct (determine_confidence_range s) as [Hs|[Hs|Hs]].
  - rewrite should_escalate_explicit in H by (rewrite ?Hs; congruence).
    injection H as <- _. discriminate Hd.
  - rewrite should_escalate_explicit in H by (rewrite ?Hs; congruence).
    injection H as <- _. discriminate Hd.
  - rewrite should_escalate_low in H by assumption.
    injection H as <- _. discriminate Hd.
  - rewrite should_escalate_high in H by assumption. injection H as <- _.
    rewrite Hs. apply determine_confidence_high in Hs.
    apply explicit_request_false in Hq. repeat split; [lra | exact Hq].
  - rewrite should_escalate_medium in H by assumption.
    destruct (api q) as [response|e]; [|discriminate].
    destruct (parse_response response) as [| | | | |fields]; try discriminate.
    injection H as <- _. rewrite Hs. apply determine_confidence_medium in Hs.
    apply explicit_request_false in Hq.
    destruct (alarming fields); [discriminate Hd|].
    repeat split; [tauto | exact Hq].
  - rewrite should_escalate_low in H by assumption.
    injection H as <- _. discriminate Hd.
Qed.

Lemma no_escalation_only_when_safe_witness :
  0.45 <= 0.8 /\ ~ requests_human "where is my order".
Proof.
  destruct (no_escalation_only_when_safe Samples.api_down Samples.repr
              "where is my order" 0.8
              {| escalate := false;
                 reason := "High confidence in automated response";
                 confidence := "high" |} [] eq_refl eq_refl) as [H1 [H2 _]].
  split; [exact H1 | exact H2].
Defined.

Lemma append_assoc (a b c : string) : (a ++ b) ++ c = a ++ b ++ c.
Proof. induction a as [|x a IH]; simpl; [reflexivity | now rewrite IH]. Qed.

(** X7. The keyword scan sees through case and surrounding text: if a query
    is an explicit request, so is every text that embeds a re-cased copy of
    it. *)
Theorem explicit_request_embedded :
  forall q q' pre post : string,
    PyStr.lower q' = PyStr.lower q ->
    explicit_request q = true ->
    explicit_request (pre ++ q' ++ post) = true.
Proof.
  intros q q' pre post Hcase Hq.
  unfold explicit_request, PyStr.any in *.
  apply existsb_exists in Hq. destruct Hq as [k [Hin Hk]].
  apply existsb_exists. exists k. split; [exact Hin|].
  apply contains_spec in Hk. destruct Hk as [a [b Hk]].
  apply contains_spec. rewrite !lower_app, Hcase, Hk.
  exists (PyStr.lower pre ++ a), (b ++ PyStr.lower post).
  now rewrite !append_assoc.
Qed.

Lemma explicit_request_embedded_witness :
  PyStr.lower "REAL PERSON" = PyStr.lower "Real Person" /\
  explicit_request "Real Person" = true /\
  explicit_request ("I need a " ++ "REAL PERSON" ++ " now") = true.
Proof.
  split; [reflexivity|]. split; [reflexivity|].
  exact (explicit_request_embedded "Real Person" "REAL PERSON" "I need a " " now"
           eq_refl eq_refl).
Defined.

(** ** Retrieval, beyond lists of one length *)

(** The loop when the distances and the ids are at least as many as the
    documents: it stops with the documents. *)
Lemma format_loop_documents (r : store_results) (m k : nat)
    (acc : list ticket) (t : list event) :
  (k + m)%nat = List.length (documents r) ->
  (List.length (documents r) <= List.length (distances r))%nat ->
  (List.length (documents r) <= List.length (ids r))%nat ->
  format_loop r (seq k m) acc t =
  (Ok (acc ++ zip_tickets (skipn k (documents r)) (skipn k (distances r))
                          (skipn k (ids r)))%list, t).
Proof.
  revert k acc; induction m as [|m IH]; intros k acc Hk Hd Hi.
  - rewrite (skipn_all2 (documents r)) by lia. simpl. now rewrite app_nil_r.
  - destruct (skipn_cons_nth (documents r) k) as [c [Hc Hc']]; [lia|].
    destruct (skipn_cons_nth (distances r) k) as [d [Hdn Hd']]; [lia|].
    destruct (skipn_cons_nth (ids r) k) as [x [Hx Hx']]; [lia|].
    cbn [seq format_loop]. unfold bind, index. rewrite Hc, Hdn, Hx. unfold ret.
    rewrite IH by lia. rewrite Hc', Hd', Hx'. cbn [zip_tickets].
    now rewrite <- app_assoc.
Qed.

Lemma zip_tickets_columns (docs : list string) (dists : list Q) (idents : list string) :
  (List.length docs <= List.length dists)%nat ->
  (List.length docs <= List.length idents)%nat ->
  map content (zip_tickets docs dists idents) = docs
  /\ map id (zip_tickets docs dists idents) = firstn (List.length docs) idents
  /\ map similarity (zip_tickets docs dists idents)
     = map (fun d => 1.0 - d) (firstn (List.length docs) dists).
Proof.
  revert dists idents; induction docs as [|c docs IH]; intros dists idents Hd Hi.
  - now simpl.
  - destruct dists as [|d dists]; [simpl in Hd; lia|].
    destruct idents as [|x idents]; [simpl in Hi; lia|].
    simpl in *. destruct (IH dists idents) as [H1 [H2 H3]]; [lia | lia |].
    now rewrite H1, H2, H3.
Qed.

(** X8. When the store's distances and ids are at least as many as its
    documents, [retrieve_relevant_tickets] returns one record per document,
    in the store's order: record i holds document i, id i and 1.0 minus
    distance i; surplus distances and ids are ignored. *)
Theorem retrieved_records_aligned :
  forall (store : string -> nat -> result store_results)
         (q : string) (n : nat) (r : store_results),
    store q n = Ok r ->
    (List.length (documents r) <= List.length (distances r))%nat ->
    (List.length (documents r) <= List.length (ids r))%nat ->
    exists res,
      run (retrieve_relevant_tickets store q n) = (Ok res, [StoreQuery q n])
      /\ map content (results res) = documents r
      /\ map id (results res) = firstn (List.length (documents r)) (ids r)
      /\ map similarity (results res)
         = map (fun d => 1.0 - d) (firstn (List.length (documents r)) (distances r))
      /\ top_similarity res = top_of (distances r).
Proof.
  intros store q n r Hs Hd Hi.
  unfold run, retrieve_relevant_tickets, bind, call. rewrite Hs.
  rewrite format_loop_documents by (simpl; lia). simpl.
  eexists. split; [reflexivity|]. cbn [results top_similarity].
  destruct (zip_tickets_columns _ _ _ Hd Hi) as [H1 [H2 H3]].
  now rewrite H1, H2, H3.
Qed.

Lemma retrieved_records_aligned_witness :
  exists res,
    run (retrieve_relevant_tickets (Samples.store_says Samples.two_near) "late parcel" 3)
    = (Ok res, [StoreQuery "late parcel" 3])
    /\ map content (results res) = ["Summary: late parcel"; "Summary: lost parcel"]
    /\ map id (results res) = ["CS-1"; "CS-2"].
Proof.
  destruct (retrieved_records_aligned (Samples.store_says Samples.two_near)
              "late parcel" 3 Samples.two_near eq_refl)
    as [res [Hrun [Hc [Hi _]]]]; [simpl; lia | simpl; lia |].
  exists res. split; [exact Hrun|]. split; [exact Hc | exact Hi].
Defined.

(** The loop raises as soon as an index passes the distances or the ids. *)
Lemma format_loop_short (r : store_results) (m k : nat)
    (acc : list ticket) (t : list event) :
  (k + m)%nat = List.length (documents r) ->
  (k <= Nat.min (List.length (distances r)) (List.length (ids r)))%nat ->
  (Nat.min (List.length (distances r)) (List.length (ids r)) < k + m)%nat ->
  format_loop r (seq k m) acc t = (Raise IndexError, t).
Proof.
  revert k acc; induction m as [|m IH]; intros k acc Hk Hlo Hhi; [lia|].
  destruct (skipn_cons_nth (documents r) k) as [c [Hc _]]; [lia|].
  cbn [seq format_loop]. unfold bind at 1. unfold index at 1. rewrite Hc.
  unfold ret at 1.
  destruct (nth_error (distances r) k) as [d|] eqn:Hd;
    [|unfold bind, index; now rewrite Hd].
  destruct (nth_error (ids r) k) as [x|] eqn:Hx;
    [|unfold bind, index; now rewrite Hd, Hx].
  unfold bind, index. rewrite Hd, Hx. unfold ret.
  apply IH; [lia | | lia].
  assert (k < List.length (distances r))%nat
    by (apply nth_error_Some; congruence).
  assert (k < List.length (ids r))%nat
    by (apply nth_error_Some; congruence).
  lia.
Qed.

(** X9. When the store answers with fewer distances, or fewer ids, than
    documents, [retrieve_relevant_tickets] raises [IndexError] after its one
    store query, and returns nothing. *)
Theorem short_columns_raise :
  forall (store : string -> nat -> result store_results)
         (q : string) (n : nat) (r : store_results),
    store q n = Ok r ->
    (List.length (distances r) < List.length (documents r))%nat
    \/ (List.length (ids r) < List.length (documents r))%nat ->
    run (retrieve_relevant_tickets store q n) = (Raise IndexError, [StoreQuery q n]).
Proof.
  intros store q n r Hs Hshort.
  unfold run, retrieve_relevant_tickets, bind, call. rewrite Hs.
  rewrite format_loop_short; [reflexivity | simpl; lia | lia | lia].
Qed.

Lemma short_columns_raise_witness :
  run (retrieve_relevant_tickets
         (Samples.store_says {| documents := ["Summary: late parcel"];
                                ids := ["CS-1"];
                                distances := [] |})
         "late parcel" 3)
  = (Raise IndexError, [StoreQuery "late parcel" 3]).
Proof.
  apply (short_columns_raise _ "late parcel" 3
           {| documents := ["Summary: late parcel"]; ids := ["CS-1"]; distances := [] |}
           eq_refl).
  left. simpl. lia.
Defined.

Lemma zip_tickets_descending (docs : list string) (dists : list Q) (idents : list string) :
  StronglySorted Qle dists ->
  StronglySorted (fun a b => similarity b <= similarity a)
                 (zip_tickets docs dists idents).
Proof.
  intros Hs. revert docs idents.
  induction Hs as [|d dists Hs IH Hall]; intros docs idents.
  - destruct docs as [|c docs]; [constructor|]. constructor.
  - destruct docs as [|c docs]; [constructor|].
    destruct idents as [|x idents]; [constructor|].
    simpl. constructor; [apply IH|].
    clear IH Hs. revert docs idents.
    induction Hall as [|d' dists Hd Hall IH]; intros docs idents.
    + destruct docs; constructor.
    + destruct docs as [|c' docs]; [constructor|].
      destruct idents as [|x' idents]; [constructor|].
      simpl. constructor; [simpl; lra | apply IH].
Qed.

(** X10. When the store lists its answers nearest first (distances in
    ascending order), the records come in descending order of similarity,
    and top_similarity is at least every record's similarity. *)
Theorem nearest_first_gives_descending :
  forall (store : string -> nat -> result store_results)
         (q : string) (n : nat) (r : store_results),
    store q n = Ok r ->
    List.length (distances r) = List.length (documents r) ->
    List.length (ids r) = List.length (documents r) ->
    StronglySorted Qle (distances r) ->
    exists res,
      run (retrieve_relevant_tickets store q n) = (Ok res, [StoreQuery q n])
      /\ StronglySorted (fun a b => similarity b <= similarity a) (results res)
      /\ Forall (fun tk => similarity tk <= top_similarity res) (results res).
Proof.
  intros store q n r Hs Hd Hi Hsorted.
  rewrite (retrieve_relevant_tickets_run store q n r Hs Hd Hi).
  eexists. split; [reflexivity|]. cbn [results top_similarity].
  pose proof (zip_tickets_descending (documents r) _ (ids r) Hsorted) as Hdesc.
  split; [exact Hdesc|].
  destruct r as [docs idents dists]; simpl in *.
  destruct docs as [|c docs]; [constructor|].
  destruct dists as [|d dists]; [discriminate|].
  destruct idents as [|x idents]; [discriminate|].
  simpl in *. inversion Hdesc as [|? ? _ Hall]; subst.
  constructor; [simpl; lra | exact Hall].
Qed.

Lemma nearest_first_gives_descending_witness :
  exists res,
    run (retrieve_relevant_tickets (Samples.store_says Samples.two_near) "late parcel" 3)
    = (Ok res, [StoreQuery "late parcel" 3])
    /\ Forall (fun tk => similarity tk <= top_similarity res) (results res).
Proof.
  assert (Hsorted : StronglySorted Qle (distances Samples.two_near)).
  { simpl. repeat constructor. unfold Qle; simpl; lia. }
  destruct (nearest_first_gives_descending (Samples.store_says Samples.two_near)
              "late parcel" 3 Samples.two_near eq_refl eq_refl eq_refl Hsorted)
    as [res [Hrun [_ Hall]]].
  exists res. split; [exact Hrun | exact Hall].
Defined.

(** ** The context for the prompt *)

Lemma join_contains (sep p : string) (parts : list string) :
  In p parts -> exists pre post, join sep parts = pre ++ p ++ post.
Proof.
  induction parts as [|a parts IH]; intros Hin; [contradiction|].
  destruct Hin as [->|Hin].
  - exists EmptyString. destruct parts as [|b parts].
    + exists EmptyString. simpl. clear. induction p; simpl; congruence.
    + now exists (sep ++ join sep (b :: parts)).
  - destruct (IH Hin) as [pre [post H]].
    destruct parts as [|b parts]; [contradiction|].
    exists (a ++ sep ++ pre), post.
    change (join sep (a :: b :: parts)) with (a ++ sep ++ join sep (b :: parts)).
    now rewrite H, !append_assoc.
Qed.

Lemma context_parts_in (fmt : Q -> string) (tk : ticket) (results : list ticket) (k : nat) :
  In tk results -> exists i, In (context_part fmt i tk) (context_parts fmt k results).
Proof.
  revert k; induction results as [|a results IH]; intros k Hin; [contradiction|].
  destruct Hin as [->|Hin].
  - exists k. now left.
  - destruct (IH (S k) Hin) as [i Hi]. exists i. now right.
Qed.

(** The context holds the content of every record. *)
Lemma context_holds_content (fmt : Q -> string) (tk : ticket) (results : list ticket) :
  In tk results ->
  exists pre post,
    join PyStr.nl (context_parts fmt 0 results) = pre ++ content tk ++ post.
Proof.
  intros Hin. destruct (context_parts_in fmt tk results 0 Hin) as [i Hi].
  destruct (join_contains PyStr.nl _ _ Hi) as [pre [post H]].
  rewrite H. unfold context_part.
  exists (pre ++ "RELEVANT TICKET #" ++ str_of_nat (i + 1)
          ++ " (Similarity: " ++ fmt (similarity tk) ++ "):" ++ PyStr.nl),
         (PyStr.nl ++ post).
  now rewrite !append_assoc.
Qed.

(** X11. With a store answer of three equally long lists,
    [format_context_for_prompt] queries the store once and returns the ids
    in the store's order, the same top_similarity as
    [retrieve_relevant_tickets], and a context in which every retrieved
    document occurs; with no document the context is the empty string. *)
Theorem context_covers_documents :
  forall (store : string -> nat -> result store_results) (fmt : Q -> string)
         (q : string) (n : nat) (r : store_results),
    store q n = Ok r ->
    List.length (distances r) = List.length (documents r) ->
    List.length (ids r) = List.length (documents r) ->
    exists ctx,
      run (format_context_for_prompt store fmt q n) = (Ok ctx, [StoreQuery q n])
      /\ Context.ticket_ids ctx = ids r
      /\ Context.top_similarity ctx = top_of (distances r)
      /\ Forall (fun doc => exists pre post,
                   Context.formatted_context ctx = pre ++ doc ++ post)
                (documents r)
      /\ (documents r = [] -> Context.formatted_context ctx = EmptyString).
Proof.
  intros store fmt q n r Hs Hd Hi.
  pose proof (retrieve_relevant_tickets_run store q n r Hs Hd Hi) as Hrun.
  unfold run in *. unfold format_context_for_prompt, bind. rewrite Hrun.
  eexists. split; [reflexivity|].
  cbn [Context.ticket_ids Context.top_similarity Context.formatted_context
       results top_similarity].
  destruct (zip_tickets_columns (documents r) (distances r) (ids r))
    as [Hc [Hids _]]; [lia | lia |].
  split; [rewrite Hids, <- Hi; apply firstn_all|].
  split; [reflexivity|]. split.
  - apply Forall_forall. intros doc Hdoc. rewrite <- Hc in Hdoc.
    apply in_map_iff in Hdoc. destruct Hdoc as [tk [<- Htk]].
    now apply context_holds_content.
  - intros Hnil. rewrite Hnil. reflexivity.
Qed.

Lemma context_covers_documents_witness :
  exists ctx,
    run (format_context_for_prompt (Samples.store_says Samples.two_near)
           MoreSamples.two_decimals "late parcel" 3)
    = (Ok ctx, [StoreQuery "late parcel" 3])
    /\ Context.ticket_ids ctx = ["CS-1"; "CS-2"]
    /\ Context.formatted_context ctx
       = "RELEVANT TICKET #1 (Similarity: 0.80):" ++ PyStr.nl
         ++ "Summary: late parcel" ++ PyStr.nl ++ PyStr.nl
         ++ "RELEVANT TICKET #2 (Similarity: 0.60):" ++ PyStr.nl
         ++ "Summary: lost parcel" ++ PyStr.nl.
Proof.
  destruct (context_covers_documents (Samples.store_says Samples.two_near)
              MoreSamples.two_decimals "late parcel" 3 Samples.two_near
              eq_refl eq_refl eq_refl) as [ctx [Hrun [Hids _]]].
  exists ctx. split; [exact Hrun|]. split; [exact Hids|].
  symmetry in Hrun. vm_compute in Hrun. injection Hrun as ->. reflexivity.
Defined.

(** ** Composition of the phases *)

Lemma framed_ret {A} (a : A) : framed (ret a).
Proof. intros t. unfold ret. simpl. now rewrite app_nil_r. Qed.

Lemma framed_raise {A} (e : exn) : framed (@raise A e).
Proof. intros t. unfold raise. simpl. now rewrite app_nil_r. Qed.

Lemma framed_call {A} (ev : event) (answer : result A) : framed (call ev answer).
Proof. intros t. reflexivity. Qed.

Lemma framed_bind {A B} (m : M A) (k : A -> M B) :
  framed m -> (forall a, framed (k a)) -> framed (bind m k).
Proof.
  intros Hm Hk t. unfold bind. rewrite (Hm t).
  destruct (m []) as [[a|e] c]; simpl.
  - rewrite (Hk a (t ++ c)%list), (Hk a c). simpl. now rewrite app_assoc.
  - reflexivity.
Qed.

Create HintDb framed.
#[local] Hint Resolve framed_ret framed_raise framed_call : framed.

Ltac framed_step :=
  match goal with
  | |- framed (bind _ _) => apply framed_bind; [|intros ?]
  | |- framed (if ?b then _ else _) => destruct b
  | |- framed (match ?x with _ => _ end) => destruct x
  | |- framed _ => solve [auto with framed]
  end.

Lemma framed_format_loop (r : store_results) (indices : list nat) (acc : list ticket) :
  framed (format_loop r indices acc).
Proof.
  revert acc; induction indices as [|i rest IH]; intros acc; simpl.
  - apply framed_ret.
  - unfold index. repeat framed_step.
Qed.

Lemma framed_retrieve (store : string -> nat -> result store_results)
    (q : string) (n : nat) :
  framed (retrieve_relevant_tickets store q n).
Proof.
  unfold retrieve_relevant_tickets.
  apply framed_bind; [apply framed_call | intros r].
  apply framed_bind; [apply framed_format_loop | intros l; apply framed_ret].
Qed.

Lemma framed_format_context (store : string -> nat -> result store_results)
    (fmt : Q -> string) (q : string) (n : nat) :
  framed (format_context_for_prompt store fmt q n).
Proof.
  unfold format_context_for_prompt.
  apply framed_bind; [apply framed_retrieve | intros r; apply framed_ret].
Qed.

Lemma framed_should_escalate (api : string -> result completion)
    (repr : json -> string) (q : string) (s : Q) :
  framed (should_escalate api repr q s).
Proof.
  unfold should_escalate, medium_block, check_sentiment, or_else, py_get.
  repeat framed_step.
Qed.

Lemma framed_generate (generate : string -> string -> result completion)
    (q c : string) (d : decision) :
  framed (generate_response generate q c d).
Proof.
  unfold generate_response, first_content. repeat framed_step.
Qed.

(** The three phases, when each of them answers. *)
Lemma process_phases_run
    (store : string -> nat -> result store_results) (fmt : Q -> string)
    (api : string -> result completion) (repr : json -> string)
    (generate : string -> string -> result completion)
    (q : string) (r : store_results) (d : decision) (calls : list event)
    (first : message_content) (others : completion) :
  store q 3%nat = Ok r ->
  List.length (distances r) = List.length (documents r) ->
  List.length (ids r) = List.length (documents r) ->
  run (should_escalate api repr q (top_of (distances r))) = (Ok d, calls) ->
  generate (system_prompt q (context_of fmt r) d) q = Ok (first :: others) ->
  run (process_phases store fmt api repr generate q) =
  (Ok ({| Context.formatted_context := context_of fmt r;
          Context.top_similarity := top_of (distances r);
          Context.ticket_ids := ids r |},
       {| Response.response_text := text_of first;
          Response.confidence := confidence d;
          Response.should_escalate := escalate d;
          Response.reason := reason d |}),
   ([StoreQuery q 3] ++ calls ++ [GenerateCall (system_prompt q (context_of fmt r) d) q])%list).
Proof.
  intros Hs Hd Hi Htriage Hgen.
  pose proof (retrieve_relevant_tickets_run store q 3 r Hs Hd Hi) as Hret.
  assert (Hctx : run (format_context_for_prompt store fmt q 3) =
                 (Ok {| Context.formatted_context := context_of fmt r;
                        Context.top_similarity := top_of (distances r);
                        Context.ticket_ids := ids r |}, [StoreQuery q 3])).
  { unfold run in *. unfold format_context_for_prompt, bind. rewrite Hret.
    unfold ret. cbn [results top_similarity]. unfold context_of.
    destruct (zip_tickets_columns (documents r) (distances r) (ids r))
      as [_ [Hids _]]; [lia | lia |].
    rewrite Hids, <- Hi, firstn_all. reflexivity. }
  unfold run in *. unfold process_phases, bind. rewrite Hctx.
  cbn [Context.top_similarity Context.formatted_context].
  rewrite (framed_should_escalate api repr q (top_of (distances r)) [StoreQuery q 3]).
  rewrite Htriage. cbn [fst snd].
  rewrite (framed_generate generate q (context_of fmt r) d).
  unfold generate_response at 1 2. unfold bind, call. rewrite Hgen.
  destruct first; reflexivity.
Qed.

(** X12. [process_query] composes the phases: when the store answers with
    three equally long lists, [should_escalate] returns a decision for the
    top similarity and the generator answers with a text, the reply carries
    that text, the decision's confidence, escalate flag and reason, the
    store's ids and the top similarity; the calls are made in the order
    store, triage, generator. *)
Theorem process_query_composes :
  forall (store : string -> nat -> result store_results) (fmt : Q -> string)
         (api : string -> result completion) (repr : json -> string)
         (generate : string -> string -> result completion)
         (q : string) (r : store_results) (d : decision) (calls : list event)
         (text : string) (decoded : option json) (others : completion),
    store q 3%nat = Ok r ->
    List.length (distances r) = List.length (documents r) ->
    List.length (ids r) = List.length (documents r) ->
    run (should_escalate api repr q (top_of (distances r))) = (Ok d, calls) ->
    generate (system_prompt q (context_of fmt r) d) q = Ok (Text text decoded :: others) ->
    process_query store fmt api repr generate q [] =
    (Returned {| Reply.response :=
                   {| Response.response_text := Some text;
                      Response.confidence := confidence d;
                      Response.should_escalate := escalate d;
                      Response.reason := reason d |};
                 Reply.relevant_ticket_ids := ids r;
                 Reply.similarity_score := top_of (distances r) |},
     ([StoreQuery q 3] ++ calls
      ++ [GenerateCall (system_prompt q (context_of fmt r) d) q])%list).
Proof.
  intros store fmt api repr generate q r d calls text decoded others
         Hs Hd Hi Htriage Hgen.
  unfold process_query.
  pose proof (process_phases_run store fmt api repr generate q r d calls _ _
                Hs Hd Hi Htriage Hgen) as H.
  unfold run in H. rewrite H. reflexivity.
Qed.

Lemma process_query_composes_witness :
  process_query (Samples.store_says Samples.two_near) MoreSamples.two_decimals
                Samples.api_down Samples.repr
                (Samples.generate_says "Your parcel is on its way.")
                "where is my parcel" [] =
  (Returned {| Reply.response :=
                 {| Response.response_text := Some "Your parcel is on its way.";
                    Response.confidence := "high";
                    Response.should_escalate := false;
                    Response.reason := "High confidence in automated response" |};
               Reply.relevant_ticket_ids := ["CS-1"; "CS-2"];
               Reply.similarity_score := 1.0 - 0.2 |},
   [StoreQuery "where is my parcel" 3;
    GenerateCall (high_prompt "where is my parcel"
                              (context_of MoreSamples.two_decimals Samples.two_near))
                 "where is my parcel"]).
Proof.
  exact (process_query_composes (Samples.store_says Samples.two_near)
           MoreSamples.two_decimals Samples.api_down Samples.repr
           (Samples.generate_says "Your parcel is on its way.")
           "where is my parcel" Samples.two_near
           {| escalate := false;
              reason := "High confidence in automated response";
              confidence := "high" |} []
           "Your parcel is on its way." None []
           eq_refl eq_refl eq_refl eq_refl eq_refl).
Defined.

(** X13. End to end, a top similarity below 0.45 (in particular an empty
    store answer, whose top similarity is 0) always escalates: whatever the
    query says, [process_query] makes no sentiment call, sends the
    escalation prompt with the reason "Low confidence in automated
    response", and returns should_escalate = true. *)
Theorem low_similarity_escalates_end_to_end :
  forall (store : string -> nat -> result store_results) (fmt : Q -> string)
         (api : string -> result completion) (repr : json -> string)
         (generate : string -> string -> result completion)
         (q : string) (r : store_results)
         (text : string) (decoded : option json) (others : completion),
    store q 3%nat = Ok r ->
    List.length (distances r) = List.length (documents r) ->
    List.length (ids r) = List.length (documents r) ->
    top_of (distances r) < 0.45 ->
    generate (escalate_prompt q (context_of fmt r)
                              "Low confidence in automated response") q
    = Ok (Text text decoded :: others) ->
    process_query store fmt api repr generate q [] =
    (Returned {| Reply.response :=
                   {| Response.response_text := Some text;
                      Response.confidence := "low";
                      Response.should_escalate := true;
                      Response.reason := "Low confidence in automated response" |};
                 Reply.relevant_ticket_ids := ids r;
                 Reply.similarity_score := top_of (distances r) |},
     [StoreQuery q 3;
      GenerateCall (escalate_prompt q (context_of fmt r)
                                    "Low confidence in automated response") q]).
Proof.
  intros store fmt api repr generate q r text decoded others Hs Hd Hi Hlow Hgen.
  apply determine_confidence_low in Hlow.
  exact (process_query_composes store fmt api repr generate q r
           {| escalate := true;
              reason := "Low confidence in automated response";
              confidence := "low" |} [] text decoded others
           Hs Hd Hi (should_escalate_low api repr q _ Hlow) Hgen).
Qed.

Lemma low_similarity_escalates_end_to_end_witness :
  top_of (distances MoreSamples.nothing) < 0.45 /\
  process_query (Samples.store_says MoreSamples.nothing) MoreSamples.two_decimals
                (Samples.api_says (Samples.sentiment_reply "low" "positive"))
                Samples.repr
                (Samples.generate_says "Let me connect you with an agent.")
                "when are you open" [] =
  (Returned {| Reply.response :=
                 {| Response.response_text := Some "Let me connect you with an agent.";
                    Response.confidence := "low";
                    Response.should_escalate := true;
                    Response.reason := "Low confidence in automated response" |};
               Reply.relevant_ticket_ids := [];
               Reply.similarity_score := 0 |},
   [StoreQuery "when are you open" 3;
    GenerateCall (escalate_prompt "when are you open" EmptyString
                                  "Low confidence in automated response")
                 "when are you open"]).
Proof.
  assert (Hlow : top_of (distances MoreSamples.nothing) < 0.45) by reflexivity.
  split; [exact Hlow|].
  exact (low_similarity_escalates_end_to_end
           (Samples.store_says MoreSamples.nothing) MoreSamples.two_decimals
           (Samples.api_says (Samples.sentiment_reply "low" "positive"))
           Samples.repr
           (Samples.generate_says "Let me connect you with an agent.")
           "when are you open" MoreSamples.nothing
           "Let me connect you with an agent." None []
           eq_refl eq_refl eq_refl Hlow eq_refl).
Defined.

(** X14. When the generator answers with a choice that has no content,
    [generate_response] returns a response whose text is [None], and
    [process_query] then raises [TypeError] at [len(None)], after all three
    phases have made their calls. *)
Theorem missing_text_raises_type_error :
  forall (store : string -> nat -> result store_results) (fmt : Q -> string)
         (api : string -> result completion) (repr : json -> string)
         (generate : string -> string -> result completion)
         (q : string) (r : store_results) (d : decision) (calls : list event)
         (others : completion),
    store q 3%nat = Ok r ->
    List.length (distances r) = List.length (documents r) ->
    List.length (ids r) = List.length (documents r) ->
    run (should_escalate api repr q (top_of (distances r))) = (Ok d, calls) ->
    generate (system_prompt q (context_of fmt r) d) q = Ok (NoContent :: others) ->
    process_query store fmt api repr generate q [] =
    (Failed TypeError,
     ([StoreQuery q 3] ++ calls
      ++ [GenerateCall (system_prompt q (context_of fmt r) d) q])%list).
Proof.
  intros store fmt api repr generate q r d calls others Hs Hd Hi Htriage Hgen.
  unfold process_query.
  pose proof (process_phases_run store fmt api repr generate q r d calls _ _
                Hs Hd Hi Htriage Hgen) as H.
  unfold run in H. rewrite H. reflexivity.
Qed.

Lemma missing_text_raises_type_error_witness :
  process_query (Samples.store_says Samples.two_near) MoreSamples.two_decimals
                Samples.api_down Samples.repr MoreSamples.generate_nothing
                "where is my parcel" [] =
  (Failed TypeError,
   [StoreQuery "where is my parcel" 3;
    GenerateCall (high_prompt "where is my parcel"
                              (context_of MoreSamples.two_decimals Samples.two_near))
                 "where is my parcel"]).
Proof.
  exact (missing_text_raises_type_error (Samples.store_says Samples.two_near)
           MoreSamples.two_decimals Samples.api_down Samples.repr
           MoreSamples.generate_nothing
           "where is my parcel" Samples.two_near
           {| escalate := false;
              reason := "High confidence in automated response";
              confidence := "high" |} [] []
           eq_refl eq_refl eq_refl eq_refl eq_refl).
Defined.

(** X15. A failing phase ends [process_query] at once: if the store query
    raises, neither triage nor the generator is called; if
    [should_escalate] raises, the generator is never called and no reply is
    produced. *)
Theorem failing_phase_stops_pipeline :
  forall (store : string -> nat -> result store_results) (fmt : Q -> string)
         (api : string -> result completion) (repr : json -> string)
         (generate : string -> string -> result completion)
         (q : string) (e : exn),
    (store q 3%nat = Raise e ->
     process_query store fmt api repr generate q [] =
     (Failed (CoreFailure e), [StoreQuery q 3]))
    /\ (forall (r : store_results) (calls : list event),
          store q 3%nat = Ok r ->
          List.length (distances r) = List.length (documents r) ->
          List.length (ids r) = List.length (documents r) ->
          run (should_escalate api repr q (top_of (distances r))) = (Raise e, calls) ->
          process_query store fmt api repr generate q [] =
          (Failed (CoreFailure e), ([StoreQuery q 3] ++ calls)%list)).
Proof.
  intros store fmt api repr generate q e. split.
  - intros Hs. unfold process_query, process_phases, format_context_for_prompt,
      retrieve_relevant_tickets, bind, call. now rewrite Hs.
  - intros r calls Hs Hd Hi Htriage.
    pose proof (retrieve_relevant_tickets_run store q 3 r Hs Hd Hi) as Hret.
    unfold run in *.
    unfold process_query, process_phases, format_context_for_prompt, bind.
    rewrite Hret. unfold ret. cbn [Context.top_similarity top_similarity].
    rewrite (framed_should_escalate api repr q (top_of (distances r)) [StoreQuery q 3]).
    now rewrite Htriage.
Qed.

Lemma failing_phase_stops_pipeline_witness :
  process_query MoreSamples.store_down MoreSamples.two_decimals
                Samples.api_down Samples.repr
                (Samples.generate_says "Your parcel is on its way.")
                "where is my parcel" []
  = (Failed (CoreFailure StoreError), [StoreQuery "where is my parcel" 3])
  /\ process_query (Samples.store_says
                      {| documents := ["Summary: late parcel"];
                         ids := ["CS-1"];
                         distances := [0.5] |})
                   MoreSamples.two_decimals Samples.api_down Samples.repr
                   (Samples.generate_says "Your parcel is on its way.")
                   "where is my parcel" []
     = (Failed (CoreFailure APIError),
        [StoreQuery "where is my parcel" 3; SentimentCall "where is my parcel"]).
Proof.
  split.
  - exact (proj1 (failing_phase_stops_pipeline MoreSamples.store_down
                    MoreSamples.two_decimals Samples.api_down Samples.repr
                    (Samples.generate_says "Your parcel is on its way.")
                    "where is my parcel" StoreError) eq_refl).
  - exact (proj2 (failing_phase_stops_pipeline _
                    MoreSamples.two_decimals Samples.api_down Samples.repr
                    (Samples.generate_says "Your parcel is on its way.")
                    "where is my parcel" APIError)
                 {| documents := ["Summary: late parcel"]; ids := ["CS-1"];
                    distances := [0.5] |}
                 [SentimentCall "where is my parcel"]
                 eq_refl eq_refl eq_refl eq_refl).
Defined.

(** ** Loading tickets into the store *)

Lemma py_len_app (a b : string) : py_len (a ++ b) = (py_len a + py_len b)%N.
Proof.
  unfold py_len. induction a as [|c a IH]; simpl String.length.
  - reflexivity.
  - rewrite !Nat2N.inj_succ, IH. lia.
Qed.

Lemma py_len_take (n : N) (s : string) : py_len (take n s) = N.min n (py_len s).
Proof.
  unfold py_len. revert n; induction s as [|c s IH]; intros n; simpl.
  - lia.
  - destruct (N.eqb_spec n 0) as [->|Hn]; simpl String.length.
    + lia.
    + rewrite !Nat2N.inj_succ, IH. lia.
Qed.

Lemma estimate_within (len : N) :
  Qle_bool (inject_Z (Z.of_N len) / 4) MAX_TOKENS = true <-> (len <= 28000)%N.
Proof.
  rewrite Qle_bool_iff. unfold MAX_TOKENS.
  assert (H : inject_Z (Z.of_N len) / 4 <= 7000 <-> inject_Z (Z.of_N len) <= inject_Z 28000).
  { change (inject_Z 28000) with 28000%Q.
    generalize (inject_Z (Z.of_N len)). intros x. split; intros H.
    - assert (E : x == (x / 4) * 4) by field. rewrite E.
      apply Qle_trans with (7000 * 4); [|unfold Qle; simpl; lia].
      apply Qmult_le_compat_r; [exact H | unfold Qle; simpl; lia].
    - apply Qle_shift_div_r; [reflexivity | lra]. }
  rewrite H, <- Zle_Qle. lia.
Qed.

(** X16. No document built by [add_tickets] is longer than 28029
    characters: the cut at 28000 plus the 29 characters of the truncation
    mark. *)
Theorem document_length_bounded :
  forall ticket : row, (py_len (make_document ticket) <= 28029)%N.
Proof.
  intros ticket. unfold make_document.
  match goal with
  | |- context [Qle_bool (inject_Z (Z.of_N (py_len ?d)) / 4) MAX_TOKENS] =>
      set (document := d)
  end.
  destruct (Qle_bool (inject_Z (Z.of_N (py_len document)) / 4) MAX_TOKENS) eqn:H;
    cbn [negb].
  - apply estimate_within in H. lia.
  - rewrite py_len_app, py_len_take.
    change (py_len truncation_mark) with 29%N. lia.
Qed.

Lemma prepare_spec (tickets : list row) (idx : nat)
    (documents : list string) (metadatas : list metadata) (ids : list string) :
  prepare idx tickets documents metadatas ids =
  ((documents ++ map make_document tickets)%list,
   (metadatas ++ map make_metadata tickets)%list,
   (ids ++ make_ids idx tickets)%list).
Proof.
  revert idx documents metadatas ids.
  induction tickets as [|ticket rest IH]; intros idx documents metadatas ids; simpl.
  - now rewrite !app_nil_r.
  - rewrite IH, <- !app_assoc. reflexivity.
Qed.

Lemma make_ids_length (tickets : list row) (idx : nat) :
  List.length (make_ids idx tickets) = List.length tickets.
Proof.
  revert idx; induction tickets as [|ticket rest IH]; intros idx; simpl;
    [reflexivity | now rewrite IH].
Qed.

Lemma firstn_firstn_skipn {A} (l : list A) (a b : nat) :
  (firstn a l ++ firstn b (skipn a l))%list = firstn (a + b) l.
Proof.
  revert l; induction a as [|a IH]; intros l; simpl; [reflexivity|].
  destruct l as [|x l]; simpl.
  - now rewrite firstn_nil.
  - now rewrite IH.
Qed.

Lemma slice_app {A} (l : list A) (x y z : nat) :
  (x <= y)%nat -> (y <= z)%nat ->
  (slice l x y ++ slice l y z)%list = slice l x z.
Proof.
  intros Hxy Hyz. unfold slice.
  replace (skipn y l) with (skipn (y - x) (skipn x l))
    by (rewrite skipn_skipn; f_equal; lia).
  rewrite firstn_firstn_skipn. f_equal. lia.
Qed.

(** The slices taken at the starts [a*50, ..., (a+m-1)*50], put together. *)
Lemma slices_concat {A} (l : list A) (n m a : nat) :
  (m = 0 \/ (a + m) * 50 < n + 50)%nat ->
  List.concat (map (fun i => slice l i (Nat.min (i + 50) n))
              (map (fun k => k * 50)%nat (seq a m)))
  = slice l (Nat.min (a * 50) n) (Nat.min ((a + m) * 50) n).
Proof.
  revert a; induction m as [|m IH]; intros a H.
  - simpl. unfold slice. rewrite Nat.add_0_r, Nat.sub_diag. reflexivity.
  - destruct H as [H|H]; [discriminate|].
    cbn [seq map List.concat]. rewrite IH by (right; lia).
    replace (a * 50)%nat with (Nat.min (a * 50) n) at 1 by lia.
    replace (Nat.min (a * 50 + 50) n) with (Nat.min (S a * 50) n) by (f_equal; lia).
    rewrite slice_app by lia. f_equal. f_equal. lia.
Qed.

Lemma range_step_50 (n i : nat) :
  In i (range_step n 50) -> (i < n)%nat.
Proof.
  unfold range_step. change (50 - 1)%nat with 49%nat.
  rewrite in_map_iff. intros [k [<- Hk]]. apply in_seq in Hk.
  pose proof (Nat.div_mod_eq (n + 49) 50).
  pose proof (Nat.mod_upper_bound (n + 49) 50). lia.
Qed.

(** The batches of 50 partition a list of length [n]. *)
Lemma batches_concat {A} (l : list A) (n : nat) :
  List.length l = n ->
  List.concat (map (fun i => slice l i (Nat.min (i + 50) n)) (range_step n 50)) = l.
Proof.
  intros Hn. unfold range_step. change (50 - 1)%nat with 49%nat.
  rewrite slices_concat.
  - unfold slice. cbn [Nat.mul Nat.min skipn Nat.add]. rewrite Nat.sub_0_r.
    apply firstn_all2.
    pose proof (Nat.div_mod_eq (n + 49) 50).
    pose proof (Nat.mod_upper_bound (n + 49) 50). lia.
  - pose proof (Nat.div_mod_eq (n + 49) 50).
    pose proof (Nat.mod_upper_bound (n + 49) 50).
    destruct ((n + 49) / 50)%nat; [now left | right; lia].
Qed.

Lemma slice_length {A} (l : list A) (n i : nat) :
  List.length l = n -> (i < n)%nat ->
  (1 <= List.length (slice l i (Nat.min (i + 50) n)) <= 50)%nat.
Proof.
  intros Hn Hi. unfold slice. rewrite length_firstn, length_skipn. lia.
Qed.

Section AddTickets.

Variable collection_add : list attempt -> add_call -> bool.

Lemma add_one_by_one_extends (documents : list string) (metadatas : list metadata)
    (ids : list string) (indices : list nat) (history : list attempt) :
  exists more,
    add_one_by_one collection_add documents metadatas ids indices history
    = (history ++ more)%list.
Proof.
  revert history; induction indices as [|j rest IH]; intros history; simpl.
  - exists []. now rewrite app_nil_r.
  - destruct (nth_error documents j), (nth_error metadatas j), (nth_error ids j);
      try apply IH.
    unfold try_add. cbn [fst].
    destruct (IH (history ++ [{| sent := {| add_documents := [s];
                                            add_metadatas := [m];
                                            add_ids := [s0] |};
                                 accepted := collection_add history
                                   {| add_documents := [s]; add_metadatas := [m];
                                      add_ids := [s0] |} |}])%list) as [more H].
    rewrite H, <- app_assoc. eauto.
Qed.

Lemma add_batch_extends (documents : list string) (metadatas : list metadata)
    (ids : list string) (history : list attempt) (i : nat) :
  exists more,
    add_batch collection_add documents metadatas ids history i = (history ++ more)%list.
Proof.
  unfold add_batch, try_add.
  destruct (collection_add history _); [eauto|].
  match goal with
  | |- context [add_one_by_one _ _ _ _ ?idx ?h] =>
      destruct (add_one_by_one_extends documents metadatas ids idx h) as [more H]
  end.
  rewrite H, <- app_assoc. eauto.
Qed.

Lemma fold_add_batch_keeps (documents : list string) (metadatas : list metadata)
    (ids : list string) (starts : list nat) (history : list attempt) (a : attempt) :
  In a history ->
  In a (fold_left (add_batch collection_add documents metadatas ids) starts history).
Proof.
  revert history; induction starts as [|i rest IH]; intros history Hin; simpl.
  - exact Hin.
  - apply IH. destruct (add_batch_extends documents metadatas ids history i) as [more H].
    rewrite H. apply in_or_app. now left.
Qed.

(** After a failed batch, each indexed ticket gets a call of its own. *)
Lemma add_one_by_one_covers (documents : list string) (metadatas : list metadata)
    (ids : list string) (indices : list nat) (history : list attempt)
    (j : nat) (d : string) :
  In j indices ->
  nth_error documents j = Some d ->
  (j < List.length metadatas)%nat ->
  (j < List.length ids)%nat ->
  exists a,
    In a (add_one_by_one collection_add documents metadatas ids indices history)
    /\ add_documents (sent a) = [d].
Proof.
  revert history; induction indices as [|k rest IH]; intros history Hin Hd Hm Hx;
    [contradiction|].
  destruct Hin as [->|Hin].
  - simpl. rewrite Hd.
    destruct (nth_error metadatas j) as [m|] eqn:Em;
      [|apply nth_error_None in Em; lia].
    destruct (nth_error ids j) as [x|] eqn:Ex;
      [|apply nth_error_None in Ex; lia].
    unfold try_add. cbn [fst].
    match goal with
    | |- context [add_one_by_one _ _ _ _ rest ?h] =>
        destruct (add_one_by_one_extends documents metadatas ids rest h) as [more H]
    end.
    rewrite H. eexists. split.
    + apply in_or_app. left. apply in_or_app. right. left. reflexivity.
    + reflexivity.
  - simpl.
    destruct (nth_error documents k), (nth_error metadatas k), (nth_error ids k);
      now apply IH.
Qed.

Lemma in_slice_nth {A} (l : list A) (i j : nat) (x : A) :
  In x (slice l i j) ->
  exists k, (i <= k < j)%nat /\ nth_error l k = Some x.
Proof.
  unfold slice. intros Hin.
  apply In_nth_error in Hin. destruct Hin as [p Hp].
  assert (Hlt : (p < j - i)%nat).
  { assert (p < List.length (firstn (j - i) (skipn i l)))%nat
      by (apply nth_error_Some; congruence).
    rewrite length_firstn in H. lia. }
  rewrite nth_error_firstn in Hp.
  destruct (Nat.ltb_spec p (j - i)); [|lia].
  rewrite nth_error_skipn in Hp.
  exists (i + p)%nat. split; [lia | exact Hp].
Qed.

(** One batch: each of its documents is in the accepted batch call, or in a
    call of its own. *)
Lemma add_batch_covers (documents : list string) (metadatas : list metadata)
    (ids : list string) (history : list attempt) (i : nat) (d : string) :
  List.length metadatas = List.length documents ->
  List.length ids = List.length documents ->
  In d (slice documents i (Nat.min (i + 50) (List.length documents))) ->
  exists a,
    In a (add_batch collection_add documents metadatas ids history i)
    /\ In d (add_documents (sent a))
    /\ (accepted a = true \/ add_documents (sent a) = [d]).
Proof.
  intros Hm Hx Hin. unfold add_batch, try_add.
  destruct (collection_add history _) eqn:Hok.
  - eexists. split; [apply in_or_app; right; left; reflexivity|].
    split; [exact Hin | now left].
  - destruct (in_slice_nth _ _ _ _ Hin) as [j [Hj Hd]].
    match goal with
    | |- context [add_one_by_one _ _ _ _ ?idx ?h] =>
        destruct (add_one_by_one_covers documents metadatas ids idx h j d)
          as [a [Ha Hsingle]]
    end.
    + apply in_seq. lia.
    + exact Hd.
    + lia.
    + lia.
    + exists a. split; [exact Ha|]. rewrite Hsingle.
      split; [now left | now right].
Qed.

Lemma fold_add_batch_covers (documents : list string) (metadatas : list metadata)
    (ids : list string) (starts : list nat) (history : list attempt)
    (i : nat) (d : string) :
  List.length metadatas = List.length documents ->
  List.length ids = List.length documents ->
  In i starts ->
  In d (slice documents i (Nat.min (i + 50) (List.length documents))) ->
  exists a,
    In a (fold_left (add_batch collection_add documents metadatas ids) starts history)
    /\ In d (add_documents (sent a))
    /\ (accepted a = true \/ add_documents (sent a) = [d]).
Proof.
  intros Hm Hx. revert history; induction starts as [|k rest IH];
    intros history Hi Hin; [contradiction|].
  destruct Hi as [->|Hi]; simpl.
  - destruct (add_batch_covers documents metadatas ids history i d Hm Hx Hin)
      as [a [Ha Hprop]].
    exists a. split; [now apply fold_add_batch_keeps | exact Hprop].
  - now apply IH.
Qed.

(** With a collection that accepts every call, the attempts are the batches,
    one call each. *)
Lemma fold_add_batch_accepted (documents : list string) (metadatas : list metadata)
    (ids : list string) (starts : list nat) (history : list attempt) :
  accepts_all collection_add ->
  fold_left (add_batch collection_add documents metadatas ids) starts history
  = (history
     ++ map (fun i =>
               let end_idx := Nat.min (i + 50) (List.length documents) in
               {| sent := {| add_documents := slice documents i end_idx;
                             add_metadatas := slice metadatas i end_idx;
                             add_ids := slice ids i end_idx |};
                  accepted := true |}) starts)%list.
Proof.
  intros Hall. revert history; induction starts as [|i rest IH]; intros history; simpl.
  - now rewrite app_nil_r.
  - rewrite IH. unfold add_batch, try_add. rewrite Hall.
    now rewrite <- app_assoc.
Qed.

End AddTickets.

(** X17. With a collection that accepts every call, [add_tickets] sends the
    tickets in batches of at least 1 and at most 50, one call per batch, in
    order and without loss: put together, the batches are the documents,
    the metadata and the ids of all rows; it returns the number of rows. *)
Theorem add_tickets_batches :
  forall (collection_add : list attempt -> add_call -> bool) (tickets : list row),
    accepts_all collection_add ->
    fst (add_tickets collection_add tickets) = List.length tickets
    /\ Forall (fun a => accepted a = true
                        /\ (1 <= List.length (add_documents (sent a)) <= 50)%nat)
              (snd (add_tickets collection_add tickets))
    /\ List.concat (map (fun a => add_documents (sent a))
                        (snd (add_tickets collection_add tickets)))
       = map make_document tickets
    /\ List.concat (map (fun a => add_metadatas (sent a))
                        (snd (add_tickets collection_add tickets)))
       = map make_metadata tickets
    /\ List.concat (map (fun a => add_ids (sent a))
                        (snd (add_tickets collection_add tickets)))
       = make_ids 0 tickets.
Proof.
  intros collection_add tickets Hall.
  unfold add_tickets. rewrite prepare_spec. cbn [app fst snd].
  rewrite fold_add_batch_accepted by exact Hall. cbn [app].
  rewrite !map_map. cbn [sent add_documents add_metadatas add_ids].
  rewrite !length_map.
  split; [reflexivity|]. split; [|split; [|split]].
  - apply Forall_forall. intros a Ha. apply in_map_iff in Ha.
    destruct Ha as [i [<- Hi]]. cbn [accepted sent add_documents].
    split; [reflexivity|].
    apply slice_length; [apply length_map | now apply range_step_50 in Hi].
  - apply batches_concat, length_map.
  - apply batches_concat, length_map.
  - apply batches_concat, make_ids_length.
Qed.

(** X18. Whatever the collection accepts, [add_tickets] returns the number
    of rows, and every document is sent either within an accepted batch or,
    after its batch was rejected, in a call of its own. *)
Theorem add_tickets_retries_singly :
  forall (collection_add : list attempt -> add_call -> bool) (tickets : list row),
    fst (add_tickets collection_add tickets) = List.length tickets
    /\ forall d, In d (map make_document tickets) ->
         exists a,
           In a (snd (add_tickets collection_add tickets))
           /\ In d (add_documents (sent a))
           /\ (accepted a = true \/ add_documents (sent a) = [d]).
Proof.
  intros collection_add tickets.
  unfold add_tickets. rewrite prepare_spec. cbn [app fst snd].
  split; [apply length_map|].
  intros d Hd.
  rewrite <- (batches_concat (map make_document tickets) _ eq_refl) in Hd.
  apply in_concat in Hd. destruct Hd as [batch [Hbatch Hd]].
  apply in_map_iff in Hbatch. destruct Hbatch as [i [<- Hi]].
  apply (fold_add_batch_covers collection_add _ _ _ _ [] i d);
    [now rewrite !length_map | now rewrite make_ids_length, length_map
    | exact Hi | exact Hd].
Qed.

Lemma add_tickets_batches_witness :
  accepts_all TicketSamples.accepting /\
  add_tickets TicketSamples.accepting
              [TicketSamples.late_parcel; TicketSamples.no_key]
  = (2%nat,
     [{| sent := {| add_documents := [make_document TicketSamples.late_parcel;
                                      make_document TicketSamples.no_key];
                    add_metadatas := [{| issue_key := "CS-1"; status := "Done";
                                         priority := EmptyString |};
                                      {| issue_key := EmptyString; status := "Open";
                                         priority := EmptyString |}];
                    add_ids := ["CS-1"; "ticket_1"] |};
         accepted := true |}]).
Proof.
  assert (Hall : accepts_all TicketSamples.accepting) by (intros h c; reflexivity).
  split; [exact Hall|].
  pose proof (add_tickets_batches TicketSamples.accepting
                [TicketSamples.late_parcel; TicketSamples.no_key] Hall) as [Hcount _].
  destruct (add_tickets TicketSamples.accepting
              [TicketSamples.late_parcel; TicketSamples.no_key]) as [count history] eqn:E.
  simpl in Hcount. subst count. vm_compute in E. injection E as <-. vm_compute. reflexivity.
Defined.

(** ** Feedback *)

Lemma take_prefix (n : N) (s : string) : exists rest, s = take n s ++ rest.
Proof.
  revert n; induction s as [|c s IH]; intros n; simpl.
  - now exists EmptyString.
  - destruct (n =? 0)%N.
    + now exists (String c s).
    + destruct (IH (N.pred n)) as [rest H]. exists rest. simpl. now rewrite <- H.
Qed.

(** X19. The response summary kept with a feedback entry is the response
    itself when it has at most 100 characters, and otherwise its first 100
    characters followed by "..."; it is never longer than 103 characters. *)
Theorem response_summary_bounded :
  forall response : string,
    (py_len (Feedback.summarise response) <= 103)%N
    /\ ((py_len response <= 100)%N -> Feedback.summarise response = response)
    /\ ((100 < py_len response)%N ->
        exists head rest,
          Feedback.summarise response = head ++ "..."
          /\ response = head ++ rest
          /\ py_len head = 100%N).
Proof.
  intros response. unfold Feedback.summarise.
  destruct (N.ltb_spec 100 (py_len response)) as [H|H].
  - split; [|split].
    + rewrite py_len_app, py_len_take. change (py_len "...") with 3%N. lia.
    + lia.
    + intros _. destruct (take_prefix 100 response) as [rest Hrest].
      exists (take 100 response), rest. split; [reflexivity|]. split; [exact Hrest|].
      rewrite py_len_take. lia.
  - split; [lia|]. split; [reflexivity | lia].
Qed.

Lemma response_summary_bounded_witness :
  (py_len "It is on its way." <= 100)%N /\
  Feedback.summarise "It is on its way." = "It is on its way.".
Proof.
  assert (H : (py_len "It is on its way." <= 100)%N) by (vm_compute; discriminate).
  split; [exact H|].
  exact (proj1 (proj2 (response_summary_bounded "It is on its way.")) H).
Defined.

Lemma count_types (feedback : list Feedback.entry) :
  (Feedback.count_type "positive" feedback + Feedback.count_type "negative" feedback
   + Feedback.count_type "neutral" feedback <= List.length feedback)%nat
  /\ ((Feedback.count_type "positive" feedback + Feedback.count_type "negative" feedback
       + Feedback.count_type "neutral" feedback = List.length feedback)%nat
      <-> Forall Feedback.counted feedback).
Proof.
  unfold Feedback.count_type.
  induction feedback as [|item rest [IHle IHeq]]; simpl.
  - split; [lia|]. split; [constructor | reflexivity].
  - rewrite Forall_cons_iff, <- IHeq. unfold Feedback.counted.
    destruct (String.eqb_spec (Feedback.feedback_type item) "positive") as [E|E];
      [rewrite E; simpl; split; [lia | split; [intros; split; [auto | lia] | lia]]|].
    destruct (String.eqb_spec (Feedback.feedback_type item) "negative") as [E'|E'];
      [rewrite E'; simpl; split; [lia | split; [intros; split; [auto | lia] | lia]]|].
    destruct (String.eqb_spec (Feedback.feedback_type item) "neutral") as [E''|E''];
      [rewrite E''; simpl; split; [lia | split; [intros; split; [auto | lia] | lia]]|].
    simpl. split; [lia|]. split; [lia | tauto].
Qed.

(** X20. In the summary, total is the number of entries, and positive,
    negative and neutral together never exceed it; they add up to total
    exactly when every entry has one of these three types (an entry of
    another type, such as "agent_response", is counted in total only). *)
Theorem summary_counts :
  forall (round1 : Q -> Q) (feedback : list Feedback.entry),
    let s := Feedback.get_feedback_summary round1 feedback in
    Feedback.total s = List.length feedback
    /\ (Feedback.positive s + Feedback.negative s + Feedback.neutral s
        <= Feedback.total s)%nat
    /\ ((Feedback.positive s + Feedback.negative s + Feedback.neutral s
         = Feedback.total s)%nat
        <-> Forall Feedback.counted feedback).
Proof.
  intros round1 feedback.
  destruct feedback as [|item rest].
  - simpl. split; [reflexivity|]. split; [lia|]. split; [constructor | reflexivity].
  - destruct (count_types (item :: rest)) as [Hle Heq].
    cbn [Feedback.get_feedback_summary Feedback.total Feedback.positive
         Feedback.negative Feedback.neutral].
    split; [reflexivity|]. split; [exact Hle | exact Heq].
Qed.

(** X21. For a non-empty log, recent_feedback is the last five entries, in
    order, or all of them when there are fewer than five. *)
Theorem recent_feedback_is_tail :
  forall (round1 : Q -> Q) (feedback : list Feedback.entry),
    feedback <> [] ->
    exists older recent,
      Feedback.recent_feedback (Feedback.get_feedback_summary round1 feedback)
      = Some recent
      /\ feedback = (older ++ recent)%list
      /\ List.length recent = Nat.min 5 (List.length feedback).
Proof.
  intros round1 feedback Hne.
  destruct feedback as [|item rest]; [contradiction|].
  cbn [Feedback.get_feedback_summary Feedback.recent_feedback].
  set (l := item :: rest).
  destruct (Nat.leb_spec 5 (List.length l)) as [H|H].
  - exists (firstn (List.length l - 5) l), (skipn (List.length l - 5) l).
    split; [reflexivity|]. split; [symmetry; apply firstn_skipn|].
    rewrite length_skipn. lia.
  - exists [], l. split; [reflexivity|]. split; [reflexivity | lia].
Qed.

Lemma recent_feedback_is_tail_witness :
  TicketSamples.two_entries <> [] /\
  exists older recent,
    Feedback.recent_feedback
      (Feedback.get_feedback_summary TicketSamples.round_tenths TicketSamples.two_entries)
    = Some recent
    /\ TicketSamples.two_entries = (older ++ recent)%list
    /\ List.length recent = Nat.min 5 (List.length TicketSamples.two_entries).
Proof.
  assert (Hne : TicketSamples.two_entries <> []) by discriminate.
  split; [exact Hne|].
  exact (recent_feedback_is_tail TicketSamples.round_tenths
           TicketSamples.two_entries Hne).
Defined.

(** X22. [save_feedback] returns whether the file was written, and appends
    the entry to the log in memory either way; afterwards the summary's
    total is one more, its positive count is one more exactly for a
    "positive" entry, and the new entry is the last of recent_feedback. *)
Theorem save_feedback_then_summary :
  forall (round1 : Q -> Q) (now : string) (written : bool)
         (feedback : list Feedback.entry)
         (query response feedback_type confidence : string)
         (ticket_ids : option (list string)) (similarity : option Q)
         (comments : option string),
    let saved := Feedback.save_feedback now written feedback query response
                   feedback_type confidence ticket_ids similarity comments in
    let e := Feedback.make_entry now query response feedback_type confidence
               ticket_ids similarity comments in
    let before := Feedback.get_feedback_summary round1 feedback in
    let after := Feedback.get_feedback_summary round1 (snd saved) in
    fst saved = written
    /\ snd saved = (feedback ++ [e])%list
    /\ Feedback.total after = S (Feedback.total before)
    /\ Feedback.positive after
       = (Feedback.positive before
          + if String.eqb feedback_type "positive" then 1 else 0)%nat
    /\ exists earlier, Feedback.recent_feedback after = Some (earlier ++ [e])%list.
Proof.
  intros round1 now written feedback query response feedback_type confidence
         ticket_ids similarity comments saved e before after.
  assert (Hsnd : snd saved = (feedback ++ [e])%list)
    by (unfold saved, Feedback.save_feedback; now destruct written).
  split; [unfold saved, Feedback.save_feedback; now destruct written|].
  split; [exact Hsnd|].
  unfold after. rewrite Hsnd.
  assert (Htotal : forall l, Feedback.total (Feedback.get_feedback_summary round1 l)
                             = List.length l) by (now intros [|x l]).
  assert (Hpos : forall l, Feedback.positive (Feedback.get_feedback_summary round1 l)
                           = Feedback.count_type "positive" l) by (now intros [|x l]).
  split; [|split].
  - unfold before. rewrite !Htotal, length_app. simpl. lia.
  - unfold before. rewrite !Hpos. unfold Feedback.count_type.
    rewrite filter_app, length_app. simpl.
    now destruct (String.eqb feedback_type "positive").
  - destruct (feedback ++ [e])%list as [|x l] eqn:E;
      [now destruct feedback|].
    cbn [Feedback.get_feedback_summary Feedback.recent_feedback]. rewrite <- E.
    destruct (Nat.leb_spec 5 (List.length (feedback ++ [e]))) as [H|H].
    + exists (skipn (List.length (feedback ++ [e]) - 5) feedback).
      rewrite length_app in *. simpl in *. rewrite skipn_app.
      replace (List.length feedback + 1 - 5 - List.length feedback)%nat with 0%nat by lia.
      reflexivity.
    + now exists feedback.
Qed.

(** ** The queue of escalated conversations *)

Lemma dict_lookup_set_same (key : string) (value : Agent.agent_reply)
    (d : list (string * Agent.agent_reply)) :
  Agent.dict_lookup key (Agent.dict_set key value d) = Some value.
Proof.
  induction d as [|[k v] rest IH]; simpl.
  - now rewrite String.eqb_refl.
  - destruct (String.eqb k key) eqn:E; simpl; rewrite E; [reflexivity | exact IH].
Qed.

Lemma dict_lookup_set_other (key other : string) (value : Agent.agent_reply)
    (d : list (string * Agent.agent_reply)) :
  other <> key ->
  Agent.dict_lookup other (Agent.dict_set key value d) = Agent.dict_lookup other d.
Proof.
  intros Hne. induction d as [|[k v] rest IH]; simpl.
  - destruct (String.eqb_spec key other); [congruence | reflexivity].
  - destruct (String.eqb_spec k key) as [->|Hk]; simpl.
    + destruct (String.eqb_spec key other); [congruence | reflexivity].
    + destruct (String.eqb k other); [reflexivity | exact IH].
Qed.

(** X23. When the queue exists, handling a conversation removes every
    pending conversation with its id and keeps the others in order; the
    agent's reply can then be read back under that id, and the replies
    stored under other ids are untouched. *)
Theorem handled_conversation_leaves_queue :
  forall (now now' : string) (written : bool)
         (manager : option (list Feedback.entry)) (st : Agent.session)
         (pending : list Agent.conversation)
         (conv : Agent.conversation) (response : string),
    Agent.pending_conversations st = Some pending ->
    let st' := fst (Agent.handle_agent_response now now' written manager st conv response) in
    Agent.pending_conversations st'
    = Some (filter (fun c => negb (String.eqb (Agent.id c) (Agent.id conv))) pending)
    /\ (forall left c, Agent.pending_conversations st' = Some left ->
                       In c left -> Agent.id c <> Agent.id conv)
    /\ Agent.get_agent_response st' (Agent.id conv)
       = Some {| Agent.response := response;
                 Agent.agent := Agent.agent_name st;
                 Agent.replied_at := now |}
    /\ forall other, other <> Agent.id conv ->
         Agent.get_agent_response st' other = Agent.get_agent_response st other.
Proof.
  intros now now' written manager st pending conv response Hp st'.
  assert (Hst' : st' =
    {| Agent.pending_conversations :=
         Some (filter (fun c => negb (String.eqb (Agent.id c) (Agent.id conv))) pending);
       Agent.agent_responses :=
         Some (Agent.dict_set (Agent.id conv)
                 {| Agent.response := response; Agent.agent := Agent.agent_name st;
                    Agent.replied_at := now |}
                 match Agent.agent_responses st with Some d => d | None => [] end);
       Agent.agent_name := Agent.agent_name st |}).
  { unfold st', Agent.handle_agent_response. rewrite Hp. now destruct manager. }
  rewrite Hst'. cbn [Agent.pending_conversations].
  split; [reflexivity|]. split; [|split].
  - intros left c Heq Hin. injection Heq as Heq. rewrite <- Heq in Hin.
    apply filter_In in Hin. destruct Hin as [_ Hc].
    destruct (String.eqb_spec (Agent.id c) (Agent.id conv)); [discriminate | assumption].
  - unfold Agent.get_agent_response. cbn [Agent.agent_responses].
    apply dict_lookup_set_same.
  - intros other Hne. unfold Agent.get_agent_response. cbn [Agent.agent_responses].
    rewrite dict_lookup_set_other by exact Hne.
    now destruct (Agent.agent_responses st).
Qed.

Lemma handled_conversation_leaves_queue_witness :
  exists conv,
    Agent.pending_conversations (snd AgentSamples.queued) = Some [conv]
    /\ Agent.pending_conversations
         (fst (Agent.handle_agent_response "2023-11-14T22:20:00" "2023-11-14T22:20:01"
                 true None (snd AgentSamples.queued) conv "Your refund is on its way."))
       = Some []
    /\ Agent.get_agent_response
         (fst (Agent.handle_agent_response "2023-11-14T22:20:00" "2023-11-14T22:20:01"
                 true None (snd AgentSamples.queued) conv "Your refund is on its way."))
         (Agent.id conv)
       = Some {| Agent.response := "Your refund is on its way.";
                 Agent.agent := "Kim";
                 Agent.replied_at := "2023-11-14T22:20:00" |}.
Proof.
  eexists. split; [reflexivity|].
  match goal with
  | |- context [Agent.handle_agent_response ?n ?n' ?w ?m ?st ?c ?r] =>
      destruct (handled_conversation_leaves_queue n n' w m st [c] c r eq_refl)
        as [Hq [_ [Hget _]]]
  end.
  split; [rewrite Hq; reflexivity | exact Hget].
Defined.

(** X24. Queueing a conversation and then handling it: the queue is back to
    the conversations it held before, minus any that shared the new id (none,
    when the ids in the queue differ from it), and the agent's reply is
    stored under the id that [add_to_agent_queue] returned. *)
Theorem queue_then_handle :
  forall (seconds : N) (now now1 now2 : string) (written : bool)
         (manager : option (list Feedback.entry)) (st : Agent.session)
         (query bot_response reason response : string),
    let conv_id := fst (Agent.add_to_agent_queue seconds now st query bot_response reason) in
    let st1 := snd (Agent.add_to_agent_queue seconds now st query bot_response reason) in
    let before := match Agent.pending_conversations st with Some l => l | None => [] end in
    forall conv,
      Agent.pending_conversations st1 = Some (before ++ [conv])%list ->
      let st2 := fst (Agent.handle_agent_response now1 now2 written manager st1 conv response) in
      Agent.id conv = conv_id
      /\ Agent.pending_conversations st2
         = Some (filter (fun c => negb (String.eqb (Agent.id c) conv_id)) before)
      /\ (Forall (fun c => Agent.id c <> conv_id) before ->
          Agent.pending_conversations st2 = Some before)
      /\ Agent.get_agent_response st2 conv_id
         = Some {| Agent.response := response;
                   Agent.agent := Agent.agent_name st;
                   Agent.replied_at := now1 |}.
Proof.
  intros seconds now now1 now2 written manager st query bot_response reason response
         conv_id st1 before conv Hq st2.
  assert (Hconv : conv = {| Agent.id := conv_id; Agent.query := query;
                            Agent.bot_response := bot_response;
                            Agent.reason := reason; Agent.timestamp := now |}).
  { unfold st1, Agent.add_to_agent_queue in Hq. cbn [snd Agent.pending_conversations] in Hq.
    injection Hq as Hq. apply app_inv_head in Hq. now injection Hq as <-. }
  assert (Hid : Agent.id conv = conv_id) by (now rewrite Hconv).
  split; [exact Hid|].
  assert (Hst2 : st2 =
    {| Agent.pending_conversations :=
         Some (filter (fun c => negb (String.eqb (Agent.id c) (Agent.id conv)))
                      (before ++ [conv]));
       Agent.agent_responses :=
         Some (Agent.dict_set (Agent.id conv)
                 {| Agent.response := response; Agent.agent := Agent.agent_name st1;
                    Agent.replied_at := now1 |}
                 match Agent.agent_responses st1 with Some d => d | None => [] end);
       Agent.agent_name := Agent.agent_name st1 |}).
  { unfold st2, Agent.handle_agent_response. rewrite Hq. now destruct manager. }
  assert (Hfilter : filter (fun c => negb (String.eqb (Agent.id c) (Agent.id conv)))
                           (before ++ [conv])
                    = filter (fun c => negb (String.eqb (Agent.id c) conv_id)) before).
  { rewrite filter_app, Hid. cbn [filter]. rewrite Hid, String.eqb_refl.
    apply app_nil_r. }
  rewrite Hst2, Hfilter. cbn [Agent.pending_conversations].
  split; [reflexivity|]. split.
  - intros Hall. f_equal. apply forallb_filter_id. apply forallb_forall.
    intros c Hc. rewrite Forall_forall in Hall. specialize (Hall c Hc).
    now destruct (String.eqb_spec (Agent.id c) conv_id).
  - unfold Agent.get_agent_response. cbn [Agent.agent_responses].
    rewrite Hid, dict_lookup_set_same. reflexivity.
Qed.

Lemma queue_then_handle_witness :
  exists conv,
    Agent.pending_conversations (snd AgentSamples.queued) = Some ([] ++ [conv])%list
    /\ Agent.id conv = "conv_1700000000_0"
    /\ Agent.pending_conversations
         (fst (Agent.handle_agent_response "2023-11-14T22:20:00" "2023-11-14T22:20:01"
                 true None (snd AgentSamples.queued) conv "Your refund is on its way."))
       = Some [].
Proof.
  eexists. split; [reflexivity|].
  match goal with
  | |- context [Agent.handle_agent_response ?n1 ?n2 ?w ?m _ ?c ?r] =>
      destruct (queue_then_handle 1700000000%N "2023-11-14T22:13:20" n1 n2 w m
                  AgentSamples.fresh
                  "I want a refund" "Let me connect you with an agent."
                  "Customer explicitly requested human assistance" r c eq_refl)
        as [Hid [Hq _]]
  end.
  split; [exact Hid | exact Hq].
Defined.

(** X25. When there is a feedback manager and the queue exists, the agent's
    reply is appended to the feedback log as an entry of type
    "agent_response" with confidence "human"; from then on the summary's
    positive, negative and neutral counts add up to less than its total. *)
Theorem agent_reply_logged_uncounted :
  forall (round1 : Q -> Q) (now now' : string) (written : bool)
         (feedback : list Feedback.entry) (st : Agent.session)
         (pending : list Agent.conversation)
         (conv : Agent.conversation) (response : string),
    Agent.pending_conversations st = Some pending ->
    exists e,
      snd (Agent.handle_agent_response now now' written (Some feedback) st conv response)
      = Some (feedback ++ [e])%list
      /\ Feedback.feedback_type e = "agent_response"
      /\ Feedback.confidence_level e = "human"
      /\ Feedback.query e = Agent.query conv
      /\ Feedback.comments e = Some ("Agent: " ++ Agent.agent_name st)
      /\ let s := Feedback.get_feedback_summary round1 (feedback ++ [e]) in
         (Feedback.positive s + Feedback.negative s + Feedback.neutral s
          < Feedback.total s)%nat.
Proof.
  intros round1 now now' written feedback st pending conv response Hp.
  unfold Agent.handle_agent_response. rewrite Hp. cbn [snd].
  unfold Feedback.save_feedback.
  eexists. split; [destruct written; reflexivity|].
  cbn [Feedback.make_entry Feedback.feedback_type Feedback.confidence_level
       Feedback.query Feedback.comments].
  repeat (split; [reflexivity|]).
  match goal with |- context [(feedback ++ [?x])%list] => set (e := x) end.
  destruct (count_types (feedback ++ [e])) as [Hle Heq].
  assert (Hnot : ~ Forall Feedback.counted (feedback ++ [e])).
  { intros Hall. apply Forall_app in Hall. destruct Hall as [_ Hall].
    inversion Hall as [|? ? Hc _]; subst.
    destruct Hc as [Hc|[Hc|Hc]]; discriminate Hc. }
  destruct (feedback ++ [e])%list as [|x l] eqn:E; [now destruct feedback|].
  cbn [Feedback.get_feedback_summary Feedback.total Feedback.positive
       Feedback.negative Feedback.neutral].
  rewrite <- Heq in Hnot. lia.
Qed.

Lemma agent_reply_logged_uncounted_witness :
  exists conv e,
    Agent.pending_conversations (snd AgentSamples.queued) = Some [conv]
    /\ snd (Agent.handle_agent_response "2023-11-14T22:20:00" "2023-11-14T22:20:01"
              false (Some TicketSamples.two_entries) (snd AgentSamples.queued) conv
              "Your refund is on its way.")
       = Some (TicketSamples.two_entries ++ [e])%list
    /\ Feedback.feedback_type e = "agent_response".
Proof.
  eexists.
  match goal with
  | |- exists e, ?P = Some [?c] /\ _ =>
      destruct (agent_reply_logged_uncounted TicketSamples.round_tenths
                  "2023-11-14T22:20:00" "2023-11-14T22:20:01" false
                  TicketSamples.two_entries (snd AgentSamples.queued) [c] c
                  "Your refund is on its way." eq_refl)
        as [e [Hlog [Htype _]]]
  end.
  exists e. split; [reflexivity|]. split; [exact Hlog | exact Htype].
Defined.
